(** * DDSPreview: the DDS preview plugin of Mod Organizer 2

    A shallow embedding of [src/DDSPreview.py]: the [DDSWidget] OpenGL widget
    (construction, [initializeGL], [paintGL], [cleanup]) and the [DDSPreview]
    plugin object (settings, [genFilePreview], the two settings readers).

    Python objects are records, attributes that may hold [None] are options,
    and every call into Qt, OpenGL or the DDS package is recorded, in program
    order, as one [Event] of a trace.  Methods run in a small state, trace and
    exception monad, so a raised exception keeps the state and the calls made
    before it. *)

From Stdlib Require Import String Ascii List ZArith Bool Lia QArith.
Import ListNotations.
Close Scope Q_scope.
Open Scope string_scope.
Open Scope Z_scope.
Open Scope list_scope.

Set Implicit Arguments.

(** ** Python values and exceptions *)

(** The values the host hands back for this plugin's settings: the host keeps
    each setting at the type of its registered default, a [bool] or a (C)
    [int]. *)
Inductive PyVal : Type :=
| PyBool (b : bool)
| PyInt (z : Z).

(** Python's truth protocol ([if x:], [not x]). *)
Class Truthy (A : Type) : Type := truthy : A -> bool.

#[global] Instance truthy_PyVal : Truthy PyVal :=
  fun v => match v with
           | PyBool b => b
           | PyInt z => negb (z =? 0)
           end.

(** An attribute holding either [None] or an object whose class defines
    neither [__bool__] nor [__len__] (every Qt wrapper used here). *)
#[global] Instance truthy_object {A : Type} : Truthy (option A) :=
  fun o => match o with
           | Some _ => true
           | None => false
           end.

(** [bool] is a subclass of [int]: what an [int] parameter receives. *)
Definition as_int (v : PyVal) : Z :=
  match v with
  | PyBool true => 1
  | PyBool false => 0
  | PyInt z => z
  end.

(** Modelled from the spec: the error kinds of the absent DDS package
    ([DDS/DDSFile.py]), section 7: three decode-time kinds and one upload-time
    kind. *)
Inductive DDSError : Type :=
| BadMagic
| Truncated
| UnsupportedFormat
| UploadRejected.

Inductive PyExn : Type :=
| AttributeError (type_name attr : string)
| TypeError (what : string)
| DDSException (e : DDSError).

Inductive Res (A : Type) : Type :=
| Ok (a : A)
| Raise (e : PyExn).
Arguments Raise {A} e.

(** ** Shader sources (module-level string constants of the source) *)

Definition vertexShader2D : string := "
#version 150

uniform float aspectRatioRatio;

in vec4 position;
in vec2 texCoordIn;

out vec2 texCoord;

void main()
{
    texCoord = texCoordIn;
    gl_Position = position;
    if (aspectRatioRatio >= 1.0)
        gl_Position.y /= aspectRatioRatio;
    else
        gl_Position.x *= aspectRatioRatio;
}
".

Definition vertexShaderCube : string := "
#version 150

uniform float aspectRatioRatio;

in vec4 position;
in vec2 texCoordIn;

out vec2 texCoord;

void main()
{
    texCoord = texCoordIn;
    gl_Position = position;
}
".

Definition fragmentShaderFloat : string := "
#version 150

uniform sampler2D aTexture;

in vec2 texCoord;

void main()
{
    gl_FragData[0] = texture(aTexture, texCoord);
}
".

Definition fragmentShaderUInt : string := "
#version 150

uniform usampler2D aTexture;

in vec2 texCoord;

void main()
{
    // autofilled alpha is 1, so if we have a scaling factor, we need separate ones for luminance and alpha
    gl_FragData[0] = texture(aTexture, texCoord);
}
".

Definition fragmentShaderSInt : string := "
#version 150

uniform isampler2D aTexture;

in vec2 texCoord;

void main()
{
    // autofilled alpha is 1, so if we have a scaling factor and offset, we need separate ones for luminance and alpha
    gl_FragData[0] = texture(aTexture, texCoord);
}
".

Definition fragmentShaderCube : string := "
#version 150

uniform samplerCube aTexture;

in vec2 texCoord;

const float PI = 3.1415926535897932384626433832795;

void main()
{
    float theta = -2.0 * PI * texCoord.x;
    float phi = PI * texCoord.y;
    gl_FragData[0] = texture(aTexture, vec3(sin(theta) * sin(phi), cos(theta) * sin(phi), cos(phi)));
}
".

Definition transparencyVS : string := "
#version 150

in vec4 position;

void main()
{
    gl_Position = position;
}
".

Definition transparencyFS : string := "
#version 150

uniform vec4 backgroundColour;

void main()
{
    float x = gl_FragCoord.x;
    float y = gl_FragCoord.y;
    x = mod(x, 16.0);
    y = mod(y, 16.0);
    gl_FragData[0] = x < 8.0 ^^ y < 8.0 ? vec4(vec3(191.0/255.0), 1.0) : vec4(1.0);
    gl_FragData[0].rgb = backgroundColour.rgb * backgroundColour.a + gl_FragData[0].rgb * (1.0 - backgroundColour.a);
}
".

(** The quad: six vertices, each four position floats then two texture
    coordinates. *)
Definition vertices : list Q := [
  (* vertex coordinates        texture coordinates *)
  (-1.0)%Q; (-1.0)%Q; 0.5%Q; 1.0%Q; 0.0%Q; 1.0%Q;
  (-1.0)%Q; 1.0%Q; 0.5%Q; 1.0%Q; 0.0%Q; 0.0%Q;
  1.0%Q; 1.0%Q; 0.5%Q; 1.0%Q; 1.0%Q; 0.0%Q;

  (-1.0)%Q; (-1.0)%Q; 0.5%Q; 1.0%Q; 0.0%Q; 1.0%Q;
  1.0%Q; 1.0%Q; 0.5%Q; 1.0%Q; 1.0%Q; 0.0%Q;
  1.0%Q; (-1.0)%Q; 0.5%Q; 1.0%Q; 1.0%Q; 1.0%Q
].

(** ** Objects *)

(** Modelled from the spec: the [glFormat] attribute of a decoded file (the
    spec's CanonicalFormat, section 3); the class is in the absent DDS package.
    [samplerType] is the only field this file reads. *)
Record GLFormat : Type := {
  samplerType : string;
  blockWidth : Z;
  blockHeight : Z;
  bytesPerBlockOrPixel : Z;
  isBlockCompressed : bool
}.

(** Modelled from the spec: a loaded [DDSFile] (the spec's DecodedTexture,
    section 3); the class is in the absent DDS package.  This file reads
    [isCubemap], [glFormat] and the description, and hands the whole object to
    [asQOpenGLTexture]. *)
Record DDSFile : Type := {
  fileName : string;
  width : Z;
  height : Z;
  mipMapCount : Z;
  channelMasks : list Z;
  contents : list Byte.byte;
  isCubemap : bool;
  glFormat : GLFormat;
  description : string
}.

Inductive ShaderTypeBit : Type := Vertex | Fragment.

(** Qt's [QColor(int r, int g, int b, int a)]: the colour is left invalid if
    any of the arguments is outside 0..255.  The arguments are C [int]s, as
    the host's [int] settings are; on a Python [int] beyond that range the
    binding raises before a colour is built, a case outside this model. *)
Inductive QColor : Type :=
| InvalidColour
| Rgba (r g b a : Z).

Definition channel_ok (c : Z) : bool := (0 <=? c) && (c <=? 255).

Definition QColor_init (r g b a : Z) : QColor :=
  if channel_ok r && channel_ok g && channel_ok b && channel_ok a
  then Rgba r g b a
  else InvalidColour.

Definition isValid (c : QColor) : bool :=
  match c with
  | Rgba _ _ _ _ => true
  | InvalidColour => false
  end.

(** [QColor] defines neither [__bool__] nor [__len__]: every instance is
    true. *)
#[global] Instance truthy_QColor : Truthy QColor := fun _ => true.

(** A [QOpenGLShaderProgram]: the shaders added, the attribute locations
    bound, whether it was linked, and the uniforms written so far. *)
Record QOpenGLShaderProgram : Type := {
  shaders : list (ShaderTypeBit * string);
  attributeLocations : list (string * Z);
  linked : bool;
  backgroundColourUniform : option QColor
}.

Definition emptyProgram : QOpenGLShaderProgram :=
  {| shaders := []; attributeLocations := []; linked := false;
     backgroundColourUniform := None |}.

Definition addShaderFromSourceCode (t : ShaderTypeBit) (src : string)
    (p : QOpenGLShaderProgram) : QOpenGLShaderProgram :=
  {| shaders := shaders p ++ [(t, src)];
     attributeLocations := attributeLocations p;
     linked := linked p;
     backgroundColourUniform := backgroundColourUniform p |}.

Definition bindAttributeLocation (name : string) (loc : Z)
    (p : QOpenGLShaderProgram) : QOpenGLShaderProgram :=
  {| shaders := shaders p;
     attributeLocations := attributeLocations p ++ [(name, loc)];
     linked := linked p;
     backgroundColourUniform := backgroundColourUniform p |}.

Definition link (p : QOpenGLShaderProgram) : QOpenGLShaderProgram :=
  {| shaders := shaders p;
     attributeLocations := attributeLocations p;
     linked := true;
     backgroundColourUniform := backgroundColourUniform p |}.

Definition setBackgroundColour (c : QColor) (p : QOpenGLShaderProgram)
    : QOpenGLShaderProgram :=
  {| shaders := shaders p;
     attributeLocations := attributeLocations p;
     linked := linked p;
     backgroundColourUniform := Some c |}.

(** The texture object [asQOpenGLTexture] hands back. *)
Record QOpenGLTexture : Type := {
  textureId : Z;
  textureWidth : Z;
  textureHeight : Z
}.

(** The vertex buffer: whether [create] ran, the floats allocated into it and
    their byte count. *)
Record QOpenGLBuffer : Type := {
  bufferCreated : bool;
  bufferData : list Q;
  bufferBytes : Z
}.

(** The vertex array object: whether a [Binder] created and bound it. *)
Record QOpenGLVertexArrayObject : Type := {
  vaoCreated : bool
}.

(** The slots this file connects to [messageLogged]: the one lambda of
    [initializeGL]. *)
Inductive Slot : Type := LogDebugMessage.

Record QOpenGLDebugLogger : Type := {
  loggerInitialized : bool;
  messageLogged : list Slot;
  logging : bool
}.

Inductive FormatOption : Type := DebugContext.

Record QOpenGLContext : Type := {
  extensions : list string
}.

Definition hasExtension (ctx : QOpenGLContext) (name : string) : bool :=
  existsb (String.eqb name) (extensions ctx).

(** The plugin object: [__organizer] is [None] until the host calls [init].
    The host keeps settings per plugin name and setting name. *)
Definition Organizer : Type := string -> string -> PyVal.

Record DDSPreview : Type := {
  organizer : option Organizer
}.

(** The widget's own attributes; [format] is the surface format the inherited
    [setFormat] stored. *)
Record DDSWidget : Type := {
  ddsFile : DDSFile;
  clean : bool;
  logger : option QOpenGLDebugLogger;
  program : option QOpenGLShaderProgram;
  transparecyProgram : option QOpenGLShaderProgram;
  texture : option QOpenGLTexture;
  vbo : option QOpenGLBuffer;
  vao : option QOpenGLVertexArrayObject;
  format : list FormatOption
}.

(** What a widget method sees: itself, and through [self.ddsPreview] the one
    plugin object, whose settings the host may have changed since the widget
    was built. *)
Record World : Type := {
  ddsPreview : DDSPreview;
  widget : DDSWidget
}.

(** ** The trace of external calls *)

Inductive GLenum : Type :=
| GL_TRIANGLES
| GL_FLOAT
| GL_BLEND
| GL_SRC_ALPHA
| GL_ONE_MINUS_SRC_ALPHA
| GL_TEXTURE_CUBE_MAP_SEAMLESS.

(** The widget attribute through which a shader program is reached. *)
Inductive ProgramAttr : Type :=
| self_program
| self_transparecyProgram.

(** The children [genFilePreview] puts in the grid. *)
Inductive Child : Type :=
| TheLabel
| TheDDSWidget
| TheColourButton
| TheTransparencyCheckBox.

Inductive Event : Type :=
(* the DDS package *)
| DDSFile_init (name : string)
| DDSFile_load (name : string)
| DDSFile_getDescription
| DDSFile_asQOpenGLTexture (f : DDSFile)
(* the host *)
| IOrganizer_pluginSetting (pluginName key : string)
| IOrganizer_setPluginSetting (pluginName key : string) (value : PyVal)
(* widgets of the preview panel *)
| QGridLayout_init
| QGridLayout_setRowStretch (row stretch : Z)
| QGridLayout_setColumnStretch (column stretch : Z)
| QGridLayout_addWidget (child : Child) (row column rowSpan columnSpan : Z)
| QLabel_init (text : string)
| QLabel_setWordWrap (on : bool)
| QLabel_setTextInteractionFlags
| QOpenGLWidget_init
| QOpenGLWidget_update
| QColorDialog_getColor (initial : QColor)
| QPushButton_init (text : string)
| QPushButton_clicked_connect
| QCheckBox_init (text : string)
| QCheckBox_setChecked (checked : bool)
| QCheckBox_set_showEvent
| QCheckBox_setToolTip (text : string)
| QCheckBox_stateChanged_connect
| QWidget_init
| QWidget_setLayout
(* the debug context and its logger *)
| QSurfaceFormat_init
| QSurfaceFormat_setOption (o : FormatOption)
| QOpenGLWidget_setFormat
| QOpenGLDebugLogger_init
| QOpenGLDebugLogger_initialize
| QOpenGLDebugLogger_messageLogged_connect (s : Slot)
| QOpenGLDebugLogger_startLogging
| qDebug (text : string)
(* the GL context *)
| QOpenGLVersionFunctionsFactory_get
| QOpenGLContext_aboutToBeDestroyed_connect
| QOpenGLWidget_makeCurrent
| QOpenGLWidget_doneCurrent
| glEnable (cap : GLenum)
| glDisable (cap : GLenum)
| glBlendFunc (sfactor dfactor : GLenum)
| glEnableVertexAttribArray (index : Z)
| glVertexAttribPointer (index size : Z) (type : GLenum) (normalized : bool)
    (stride offset : Z)
| glDrawArrays (mode : GLenum) (first count : Z)
(* shader programs *)
| QOpenGLShaderProgram_init (p : ProgramAttr)
| QOpenGLShaderProgram_addShaderFromSourceCode (p : ProgramAttr)
    (t : ShaderTypeBit) (source : string)
| QOpenGLShaderProgram_bindAttributeLocation (p : ProgramAttr)
    (name : string) (location : Z)
| QOpenGLShaderProgram_link (p : ProgramAttr)
| QOpenGLShaderProgram_bind (p : ProgramAttr)
| QOpenGLShaderProgram_release (p : ProgramAttr)
| QOpenGLShaderProgram_setUniformValue (p : ProgramAttr) (name : string)
    (value : QColor)
(* vertex array, vertex buffer, texture *)
| QOpenGLVertexArrayObject_init
| QOpenGLVertexArrayObject_Binder_init
| QOpenGLVertexArrayObject_destroy
| QOpenGLBuffer_init
| QOpenGLBuffer_create
| QOpenGLBuffer_bind
| QOpenGLBuffer_allocate (data : list Q) (count : Z)
| QOpenGLBuffer_destroy
| QOpenGLTexture_bind (t : QOpenGLTexture)
| QOpenGLTexture_release (t : QOpenGLTexture)
| QOpenGLTexture_destroy (t : QOpenGLTexture).

(** ** The method monad: state, trace of calls, exceptions *)

Definition M (S A : Type) : Type := S -> Res A * S * list Event.

Definition ret {S A : Type} (a : A) : M S A :=
  fun s => (Ok a, s, []).

Definition bind {S A B : Type} (m : M S A) (k : A -> M S B) : M S B :=
  fun s =>
    match m s with
    | (Ok a, s1, t1) =>
        match k a s1 with
        | (r, s2, t2) => (r, s2, t1 ++ t2)
        end
    | (Raise e, s1, t1) => (Raise e, s1, t1)
    end.

Definition get {S : Type} : M S S := fun s => (Ok s, s, []).
Definition modify {S : Type} (f : S -> S) : M S unit := fun s => (Ok tt, f s, []).
Definition call {S : Type} (e : Event) : M S unit := fun s => (Ok tt, s, [e]).
Definition raise {S A : Type} (e : PyExn) : M S A := fun s => (Raise e, s, []).

(** A call into absent code: recorded, then its result or its exception. *)
Definition foreign {S A : Type} (e : Event) (r : Res A) : M S A :=
  fun s => (r, s, [e]).

(** Running a method of a part of the state (here: of [self.ddsPreview]). *)
Definition zoom {S T A : Type} (proj : S -> T) (inj : T -> S -> S)
    (m : M T A) : M S A :=
  fun s =>
    match m (proj s) with
    | (r, t, tr) => (r, inj t s, tr)
    end.

Declare Scope py_scope.
Delimit Scope py_scope with py.
Notation "x <- m ;; k" := (bind m (fun x => k))
  (at level 100, m at next level, right associativity) : py_scope.
Notation "m ;; k" := (bind m (fun _ => k))
  (at level 100, right associativity) : py_scope.
Notation "'when' c 'then' m" := (if c then m else ret tt)
  (at level 100, c at next level, right associativity) : py_scope.

Definition result {S A : Type} (x : Res A * S * list Event) : Res A := fst (fst x).
Definition state {S A : Type} (x : Res A * S * list Event) : S := snd (fst x).
Definition trace {S A : Type} (x : Res A * S * list Event) : list Event := snd x.

(** ** Attribute assignment *)

Definition set_clean (v : bool) (w : DDSWidget) : DDSWidget :=
  {| ddsFile := ddsFile w; clean := v; logger := logger w; program := program w;
     transparecyProgram := transparecyProgram w; texture := texture w;
     vbo := vbo w; vao := vao w; format := format w |}.

Definition set_logger (v : option QOpenGLDebugLogger) (w : DDSWidget) : DDSWidget :=
  {| ddsFile := ddsFile w; clean := clean w; logger := v; program := program w;
     transparecyProgram := transparecyProgram w; texture := texture w;
     vbo := vbo w; vao := vao w; format := format w |}.

Definition set_program (v : option QOpenGLShaderProgram) (w : DDSWidget) : DDSWidget :=
  {| ddsFile := ddsFile w; clean := clean w; logger := logger w; program := v;
     transparecyProgram := transparecyProgram w; texture := texture w;
     vbo := vbo w; vao := vao w; format := format w |}.

Definition set_transparecyProgram (v : option QOpenGLShaderProgram) (w : DDSWidget)
    : DDSWidget :=
  {| ddsFile := ddsFile w; clean := clean w; logger := logger w; program := program w;
     transparecyProgram := v; texture := texture w;
     vbo := vbo w; vao := vao w; format := format w |}.

Definition set_texture (v : option QOpenGLTexture) (w : DDSWidget) : DDSWidget :=
  {| ddsFile := ddsFile w; clean := clean w; logger := logger w; program := program w;
     transparecyProgram := transparecyProgram w; texture := v;
     vbo := vbo w; vao := vao w; format := format w |}.

Definition set_vbo (v : option QOpenGLBuffer) (w : DDSWidget) : DDSWidget :=
  {| ddsFile := ddsFile w; clean := clean w; logger := logger w; program := program w;
     transparecyProgram := transparecyProgram w; texture := texture w;
     vbo := v; vao := vao w; format := format w |}.

Definition set_vao (v : option QOpenGLVertexArrayObject) (w : DDSWidget) : DDSWidget :=
  {| ddsFile := ddsFile w; clean := clean w; logger := logger w; program := program w;
     transparecyProgram := transparecyProgram w; texture := texture w;
     vbo := vbo w; vao := v; format := format w |}.

Definition set_format (v : list FormatOption) (w : DDSWidget) : DDSWidget :=
  {| ddsFile := ddsFile w; clean := clean w; logger := logger w; program := program w;
     transparecyProgram := transparecyProgram w; texture := texture w;
     vbo := vbo w; vao := vao w; format := v |}.

Definition set_widget (w : DDSWidget) (s : World) : World :=
  {| ddsPreview := ddsPreview s; widget := w |}.

Definition set_ddsPreview (p : DDSPreview) (s : World) : World :=
  {| ddsPreview := p; widget := widget s |}.

(** [self] and [self.attr = v] inside a widget method. *)
Definition self : M World DDSWidget := fun s => (Ok (widget s), s, []).

Definition setattr (f : DDSWidget -> DDSWidget) : M World unit :=
  modify (fun s => set_widget (f (widget s)) s).

Definition getProgram (p : ProgramAttr) (w : DDSWidget) : option QOpenGLShaderProgram :=
  match p with
  | self_program => program w
  | self_transparecyProgram => transparecyProgram w
  end.

Definition setProgram (p : ProgramAttr) (v : option QOpenGLShaderProgram)
    : DDSWidget -> DDSWidget :=
  match p with
  | self_program => set_program v
  | self_transparecyProgram => set_transparecyProgram v
  end.

(** [self.<p>.<method>(...)]: an [AttributeError] when the attribute holds
    [None], else the call [e], with its effect [f] on the program object. *)
Definition program_call (p : ProgramAttr) (method : string) (e : Event)
    (f : QOpenGLShaderProgram -> QOpenGLShaderProgram) : M World unit :=
  (w <- self;;
   match getProgram p w with
   | None => raise (AttributeError "NoneType" method)
   | Some obj => call e;; setattr (setProgram p (Some (f obj)))
   end)%py.

(** ** Python's [str], as far as the source uses it *)

(** [template.format(arg)] for a template whose replacement fields are [{0}]. *)
Fixpoint str_format (template arg : string) : string :=
  match template with
  | String "{" (String "0" (String "}" rest)) => (arg ++ str_format rest arg)%string
  | String c rest => String c (str_format rest arg)
  | EmptyString => EmptyString
  end.

(** The attribute names the source looks up on a [str]: the one it spells,
    and [format], which [str] has. *)
Inductive StrAttr : Type :=
| attr_fomat
| attr_format.

Definition StrAttr_name (a : StrAttr) : string :=
  match a with
  | attr_fomat => "fomat"
  | attr_format => "format"
  end.

(** [s.<a>]: [str] has a method [format] and no attribute [fomat]. *)
Definition str_getattr {S : Type} (s : string) (a : StrAttr) : M S (string -> string) :=
  match a with
  | attr_format => ret (str_format s)
  | attr_fomat => raise (AttributeError "str" (StrAttr_name a))
  end.

(** ** The environment: the host's translator, the DDS package, the GL context *)

Section Plugin.

(** [QCoreApplication.translate(context, str)]. *)
Variable translate : string -> string -> string.

(** [DDSFile(fileName)] followed by [load()]: the decoded file, or the
    exception the decoder raised. *)
Variable load : string -> Res DDSFile.

(** [ddsFile.asQOpenGLTexture(gl, context)]: the uploaded texture, or the
    exception the upload raised. *)
Variable asQOpenGLTexture : DDSFile -> Res (option QOpenGLTexture).

(** [QOpenGLContext.currentContext()]. *)
Variable currentContext : QOpenGLContext.

(** ** class DDSWidget *)

Definition DDSWidget_tr (str : string) : string := translate "DDSWidget" str.

Definition DDSWidget_init {S : Type} (ddsFile0 : DDSFile) (debugContext : PyVal)
    : M S DDSWidget :=
  (call QOpenGLWidget_init;;
   let w :=
     {| ddsFile := ddsFile0;
        clean := true;
        logger := None;
        program := None;
        transparecyProgram := None;
        texture := None;
        vbo := None;
        vao := None;
        format := [] |} in
   if truthy debugContext then
     call QSurfaceFormat_init;;
     call (QSurfaceFormat_setOption DebugContext);;
     call QOpenGLWidget_setFormat;;
     call QOpenGLDebugLogger_init;;
     ret (set_logger
            (Some {| loggerInitialized := false; messageLogged := []; logging := false |})
            (set_format [DebugContext] w))
   else ret w)%py.

(** The lambda connected to [messageLogged]:
    [qDebug(self.tr("OpenGL debug message: {0}").fomat(message.message()))]. *)
Definition run_slot {S : Type} (s : Slot) (message : string) : M S unit :=
  match s with
  | LogDebugMessage =>
      (method <- str_getattr (DDSWidget_tr "OpenGL debug message: {0}") attr_fomat;;
       call (qDebug (method message)))%py
  end.

(** The ladder of [initializeGL] that picks the two sources, with the one GL
    call its cubemap branch makes. *)
Definition selectShaders (f : DDSFile) : M World (string * string) :=
  (if isCubemap f then
     (when hasExtension currentContext "GL_ARB_seamless_cube_map"
      then call (glEnable GL_TEXTURE_CUBE_MAP_SEAMLESS));;
     ret (vertexShaderCube, fragmentShaderCube)
   else if (samplerType (glFormat f) =? "F")%string then
     ret (vertexShader2D, fragmentShaderFloat)
   else if (samplerType (glFormat f) =? "UI")%string then
     ret (vertexShader2D, fragmentShaderUInt)
   else
     ret (vertexShader2D, fragmentShaderSInt))%py.

Definition newProgram (p : ProgramAttr) : M World unit :=
  (call (QOpenGLShaderProgram_init p);;
   setattr (setProgram p (Some emptyProgram)))%py.

Definition addShader (p : ProgramAttr) (t : ShaderTypeBit) (src : string) : M World unit :=
  program_call p "addShaderFromSourceCode"
    (QOpenGLShaderProgram_addShaderFromSourceCode p t src)
    (addShaderFromSourceCode t src).

Definition bindAttribute (p : ProgramAttr) (name : string) (loc : Z) : M World unit :=
  program_call p "bindAttributeLocation"
    (QOpenGLShaderProgram_bindAttributeLocation p name loc)
    (bindAttributeLocation name loc).

Definition linkProgram (p : ProgramAttr) : M World unit :=
  program_call p "link" (QOpenGLShaderProgram_link p) link.

Definition initializeGL : M World unit :=
  (w <- self;;
   match logger w with
   | Some l =>
       call QOpenGLDebugLogger_initialize;;
       call (QOpenGLDebugLogger_messageLogged_connect LogDebugMessage);;
       call QOpenGLDebugLogger_startLogging;;
       setattr (set_logger
                  (Some {| loggerInitialized := true;
                           messageLogged := messageLogged l ++ [LogDebugMessage];
                           logging := true |}))
   | None => ret tt
   end;;
   call QOpenGLVersionFunctionsFactory_get;;
   call QOpenGLContext_aboutToBeDestroyed_connect;;

   setattr (set_clean false);;

   sel <- selectShaders (ddsFile w);;
   let vertexShader := fst sel in
   let fragmentShader := snd sel in

   newProgram self_program;;
   addShader self_program Vertex vertexShader;;
   addShader self_program Fragment fragmentShader;;
   bindAttribute self_program "position" 0;;
   bindAttribute self_program "texCoordIn" 1;;
   linkProgram self_program;;

   newProgram self_transparecyProgram;;
   addShader self_transparecyProgram Vertex transparencyVS;;
   addShader self_transparecyProgram Fragment transparencyFS;;
   bindAttribute self_transparecyProgram "position" 0;;
   linkProgram self_transparecyProgram;;

   call QOpenGLVertexArrayObject_init;;
   setattr (set_vao (Some {| vaoCreated := false |}));;
   call QOpenGLVertexArrayObject_Binder_init;;
   setattr (set_vao (Some {| vaoCreated := true |}));;

   call QOpenGLBuffer_init;;
   setattr (set_vbo (Some {| bufferCreated := false; bufferData := []; bufferBytes := 0 |}));;
   call QOpenGLBuffer_create;;
   setattr (set_vbo (Some {| bufferCreated := true; bufferData := []; bufferBytes := 0 |}));;
   call QOpenGLBuffer_bind;;

   (* len(theBytes): struct.pack writes four bytes per float *)
   let theBytes := 4 * Z.of_nat (length vertices) in
   call (QOpenGLBuffer_allocate vertices theBytes);;
   setattr (set_vbo (Some {| bufferCreated := true; bufferData := vertices;
                             bufferBytes := theBytes |}));;

   call (glEnableVertexAttribArray 0);;
   call (glEnableVertexAttribArray 1);;
   call (glVertexAttribPointer 0 4 GL_FLOAT false (6 * 4) 0);;
   call (glVertexAttribPointer 1 2 GL_FLOAT false (6 * 4) (4 * 4));;

   t <- foreign (DDSFile_asQOpenGLTexture (ddsFile w)) (asQOpenGLTexture (ddsFile w));;
   setattr (set_texture t))%py.

(** ** class DDSPreview (the part the widget calls back into) *)

Definition name : string := "DDS Preview Plugin".

Definition init (organizer0 : Organizer) : M DDSPreview bool :=
  (modify (fun _ => {| organizer := Some organizer0 |});;
   ret true)%py.

(** [self.__organizer.pluginSetting(self.name(), key)]. *)
Definition organizer_pluginSetting (key : string) : M DDSPreview PyVal :=
  (p <- get;;
   match organizer p with
   | None => raise (AttributeError "NoneType" "pluginSetting")
   | Some o => foreign (IOrganizer_pluginSetting name key) (Ok (o name key))
   end)%py.

Definition pluginSetting (key : string) : M DDSPreview PyVal :=
  organizer_pluginSetting key.

Definition getBackgroundColour : M DDSPreview QColor :=
  (r <- pluginSetting "background r";;
   g <- pluginSetting "background g";;
   b <- pluginSetting "background b";;
   a <- pluginSetting "background a";;
   ret (QColor_init (as_int r) (as_int g) (as_int b) (as_int a)))%py.

Definition getTransparency : M DDSPreview PyVal :=
  pluginSetting "transparency".

(** A method of [self.ddsPreview], called from a widget method. *)
Definition via_ddsPreview {A : Type} (m : M DDSPreview A) : M World A :=
  zoom ddsPreview set_ddsPreview m.

(** ** class DDSWidget, continued *)

Definition paintGL : M World unit :=
  (call QOpenGLVersionFunctionsFactory_get;;

   w <- self;;
   (* Binder(None) does not return: the process dies inside Qt.  The model
      ends the method here with no call made; nothing is stated about this
      branch beyond the calls it does not make. *)
   match vao w with
   | None => raise (TypeError "QOpenGLVertexArrayObject.Binder")
   | Some _ => call QOpenGLVertexArrayObject_Binder_init
   end;;

   (* Draw checkerboard so transparency is obvious *)
   program_call self_transparecyProgram "bind"
     (QOpenGLShaderProgram_bind self_transparecyProgram) (fun p => p);;

   backgroundColour <- via_ddsPreview getBackgroundColour;;
   (when truthy backgroundColour && isValid backgroundColour
    then program_call self_transparecyProgram "setUniformValue"
           (QOpenGLShaderProgram_setUniformValue self_transparecyProgram
              "backgroundColour" backgroundColour)
           (setBackgroundColour backgroundColour));;

   call (glDrawArrays GL_TRIANGLES 0 6);;

   program_call self_transparecyProgram "release"
     (QOpenGLShaderProgram_release self_transparecyProgram) (fun p => p);;

   program_call self_program "bind"
     (QOpenGLShaderProgram_bind self_program) (fun p => p);;

   match texture w with
   | Some t => call (QOpenGLTexture_bind t)
   | None => ret tt
   end;;

   transparency <- via_ddsPreview getTransparency;;
   (if truthy transparency then
      call (glEnable GL_BLEND);;
      call (glBlendFunc GL_SRC_ALPHA GL_ONE_MINUS_SRC_ALPHA)
    else
      call (glDisable GL_BLEND));;

   call (glDrawArrays GL_TRIANGLES 0 6);;

   match texture w with
   | Some t => call (QOpenGLTexture_release t)
   | None => ret tt
   end;;
   program_call self_program "release"
     (QOpenGLShaderProgram_release self_program) (fun p => p))%py.

Definition cleanup : M World unit :=
  (w <- self;;
   when negb (clean w) then
     call QOpenGLWidget_makeCurrent;;

     setattr (set_program None);;
     setattr (set_transparecyProgram None);;
     match texture w with
     | Some t => call (QOpenGLTexture_destroy t)
     | None => ret tt
     end;;
     setattr (set_texture None);;
     match vbo w with
     | Some _ => call QOpenGLBuffer_destroy
     | None => raise (AttributeError "NoneType" "destroy")
     end;;
     setattr (set_vbo None);;
     match vao w with
     | Some _ => call QOpenGLVertexArrayObject_destroy
     | None => raise (AttributeError "NoneType" "destroy")
     end;;
     setattr (set_vao None);;

     call QOpenGLWidget_doneCurrent;;
     setattr (set_clean true))%py.

Definition DDSWidget_del : M World unit := cleanup.

Definition DDSWidget_dtor : M World unit := cleanup.

(** What runs [cleanup]: the two destructor hooks, and the slot
    [initializeGL] connected to the context's [aboutToBeDestroyed]. *)
Inductive Teardown : Type :=
| by_del
| by_dtor
| by_aboutToBeDestroyed.

Definition teardown (t : Teardown) : M World unit :=
  match t with
  | by_del => DDSWidget_del
  | by_dtor => DDSWidget_dtor
  | by_aboutToBeDestroyed => cleanup
  end.

Fixpoint teardowns (ts : list Teardown) : M World unit :=
  match ts with
  | [] => ret tt
  | t :: rest => (teardown t;; teardowns rest)%py
  end.

(** The logger emitting [messageLogged(message)]: the connected slots run,
    once logging has started.  The run is followed up to the first slot that
    raises, which is all that is stated about it (Qt itself goes on to the
    slots connected after it). *)
Fixpoint run_slots {S : Type} (slots : list Slot) (message : string) : M S unit :=
  match slots with
  | [] => ret tt
  | s :: rest => (run_slot s message;; run_slots rest message)%py
  end.

Definition messageLogged_emit (message : string) : M World unit :=
  (w <- self;;
   match logger w with
   | Some l => when logging l then run_slots (messageLogged l) message
   | None => ret tt
   end)%py.

(** ** class DDSPreview *)

Definition DDSPreview_tr (str : string) : string := translate "DDSPreview" str.

(** [mobase.PluginSetting(key, description, default)]. *)
Record PluginSetting : Type := {
  key : string;
  settingDescription : string;
  default : PyVal
}.

Definition settings : list PluginSetting :=
  [ {| key := "log gl errors";
       settingDescription := DDSPreview_tr
         "If enabled, log OpenGL errors and debug messages. May decrease performance.";
       default := PyBool false |};
    {| key := "background r";
       settingDescription := DDSPreview_tr "Red channel of background colour";
       default := PyInt 0 |};
    {| key := "background g";
       settingDescription := DDSPreview_tr "Green channel of background colour";
       default := PyInt 0 |};
    {| key := "background b";
       settingDescription := DDSPreview_tr "Blue channel of background colour";
       default := PyInt 0 |};
    {| key := "background a";
       settingDescription := DDSPreview_tr "Alpha channel of background colour";
       default := PyInt 0 |};
    {| key := "transparency";
       settingDescription := DDSPreview_tr "If enabled, transparency will be displayed.";
       default := PyBool true |} ].

Definition setPluginSetting (key0 : string) (value : PyVal) : M DDSPreview unit :=
  (p <- get;;
   match organizer p with
   | None => raise (AttributeError "NoneType" "setPluginSetting")
   | Some o =>
       call (IOrganizer_setPluginSetting name key0 value);;
       modify (fun _ =>
         {| organizer := Some (fun pluginName k =>
              if ((pluginName =? name) && (k =? key0))%string then value
              else o pluginName k) |})
   end)%py.

Definition makeLabel (f : DDSFile) : M DDSPreview string :=
  (call DDSFile_getDescription;;
   call (QLabel_init (description f));;
   call (QLabel_setWordWrap true);;
   call QLabel_setTextInteractionFlags;;
   ret (description f))%py.

(** The slot of the colour button, given the colour the dialog returned. *)
Definition pickColour (newColour : QColor) : M DDSPreview unit :=
  (initial <- getBackgroundColour;;
   call (QColorDialog_getColor initial);;
   match newColour with
   | Rgba r g b a =>
       setPluginSetting "background r" (PyInt r);;
       setPluginSetting "background g" (PyInt g);;
       setPluginSetting "background b" (PyInt b);;
       setPluginSetting "background a" (PyInt a);;
       call QOpenGLWidget_update
   | InvalidColour => ret tt
   end)%py.

Definition makeColourButton : M DDSPreview unit :=
  (call (QPushButton_init (DDSPreview_tr "Pick background colour"));;
   call QPushButton_clicked_connect)%py.

(** The slot of the check box, given whether the box is checked. *)
Definition toggleTransparency (isChecked : bool) : M DDSPreview unit :=
  (let transparency := negb isChecked in
   setPluginSetting "transparency" (PyBool transparency);;
   call QOpenGLWidget_update)%py.

Definition makeToggleTransparencyButton : M DDSPreview bool :=
  (call (QCheckBox_init "Disable Transparency");;
   t <- getTransparency;;
   call (QCheckBox_setChecked (negb (truthy t)));;
   call QCheckBox_set_showEvent;;
   call (QCheckBox_setToolTip (DDSPreview_tr
     "Some games use the alpha channel for other purposes such as specularity, so viewing textures with transparency enabled makes them appear different than in the game."));;
   call QCheckBox_stateChanged_connect;;
   ret (negb (truthy t)))%py.

(** The panel [genFilePreview] returns: the label's text, the GL widget and
    the initial state of the check box, laid out in the grid. *)
Record PreviewPanel : Type := {
  panelLabel : string;
  panelDDSWidget : DDSWidget;
  panelChecked : bool
}.

Definition genFilePreview (fileName0 : string) (maxSize : Z * Z)
    : M DDSPreview PreviewPanel :=
  (call (DDSFile_init fileName0);;
   ddsFile0 <- foreign (DDSFile_load fileName0) (load fileName0);;
   call QGridLayout_init;;
   (* Image grows before label and button *)
   call (QGridLayout_setRowStretch 0 1);;
   (* Label grows before button *)
   call (QGridLayout_setColumnStretch 0 1);;
   label <- makeLabel ddsFile0;;
   call (QGridLayout_addWidget TheLabel 1 0 1 1);;

   debugContext <- organizer_pluginSetting "log gl errors";;
   ddsWidget <- DDSWidget_init ddsFile0 debugContext;;
   call (QGridLayout_addWidget TheDDSWidget 0 0 1 3);;

   makeColourButton;;
   call (QGridLayout_addWidget TheColourButton 1 2 1 1);;
   checked <- makeToggleTransparencyButton;;
   call (QGridLayout_addWidget TheTransparencyCheckBox 1 1 1 1);;

   call QWidget_init;;
   call QWidget_setLayout;;
   ret {| panelLabel := label; panelDDSWidget := ddsWidget; panelChecked := checked |})%py.

(** ** What the GL context makes of a trace

    The part of the context's state the calls of this file touch, how each
    call changes it, and the state each [glDrawArrays] found.  Only calls
    the source writes are replayed: when a method returns, its [Binder]
    local is finalised and releases the vertex array, so [vaoBound] tells
    the binding inside a method, at its draws, and not after it. *)

Record GLState : Type := {
  currentProgram : option ProgramAttr;
  vaoBound : bool;
  boundTexture : option QOpenGLTexture;
  blendEnabled : bool;
  blendFunc : GLenum * GLenum
}.

Definition gl_step (g : GLState) (e : Event) : GLState :=
  match e with
  | QOpenGLShaderProgram_bind p =>
      {| currentProgram := Some p; vaoBound := vaoBound g;
         boundTexture := boundTexture g; blendEnabled := blendEnabled g;
         blendFunc := blendFunc g |}
  | QOpenGLShaderProgram_release _ =>
      {| currentProgram := None; vaoBound := vaoBound g;
         boundTexture := boundTexture g; blendEnabled := blendEnabled g;
         blendFunc := blendFunc g |}
  | QOpenGLVertexArrayObject_Binder_init =>
      {| currentProgram := currentProgram g; vaoBound := true;
         boundTexture := boundTexture g; blendEnabled := blendEnabled g;
         blendFunc := blendFunc g |}
  | QOpenGLVertexArrayObject_destroy =>
      {| currentProgram := currentProgram g; vaoBound := false;
         boundTexture := boundTexture g; blendEnabled := blendEnabled g;
         blendFunc := blendFunc g |}
  | QOpenGLTexture_bind t =>
      {| currentProgram := currentProgram g; vaoBound := vaoBound g;
         boundTexture := Some t; blendEnabled := blendEnabled g;
         blendFunc := blendFunc g |}
  | QOpenGLTexture_release _ =>
      {| currentProgram := currentProgram g; vaoBound := vaoBound g;
         boundTexture := None; blendEnabled := blendEnabled g;
         blendFunc := blendFunc g |}
  | glEnable GL_BLEND =>
      {| currentProgram := currentProgram g; vaoBound := vaoBound g;
         boundTexture := boundTexture g; blendEnabled := true;
         blendFunc := blendFunc g |}
  | glDisable GL_BLEND =>
      {| currentProgram := currentProgram g; vaoBound := vaoBound g;
         boundTexture := boundTexture g; blendEnabled := false;
         blendFunc := blendFunc g |}
  | glBlendFunc s d =>
      {| currentProgram := currentProgram g; vaoBound := vaoBound g;
         boundTexture := boundTexture g; blendEnabled := blendEnabled g;
         blendFunc := (s, d) |}
  | _ => g
  end.

(** One draw call: its arguments and the context state it ran in. *)
Record Draw : Type := {
  drawMode : GLenum;
  drawFirst : Z;
  drawCount : Z;
  drawState : GLState
}.

Fixpoint draws (g : GLState) (tr : list Event) : list Draw :=
  match tr with
  | [] => []
  | e :: rest =>
      match e with
      | glDrawArrays mode first count =>
          {| drawMode := mode; drawFirst := first; drawCount := count;
             drawState := g |} :: draws g rest
      | _ => draws (gl_step g e) rest
      end
  end.

(** ** Predicates on events and states used in the statements *)

(** Calls that build a part of the preview panel. *)
Definition builds_panel (e : Event) : bool :=
  match e with
  | QGridLayout_init | QGridLayout_setRowStretch _ _ | QGridLayout_setColumnStretch _ _
  | QGridLayout_addWidget _ _ _ _ _ | QLabel_init _ | QLabel_setWordWrap _
  | QLabel_setTextInteractionFlags | QOpenGLWidget_init | QPushButton_init _
  | QPushButton_clicked_connect | QCheckBox_init _ | QCheckBox_setChecked _
  | QCheckBox_set_showEvent | QCheckBox_setToolTip _ | QCheckBox_stateChanged_connect
  | QWidget_init | QWidget_setLayout | QSurfaceFormat_init | QSurfaceFormat_setOption _
  | QOpenGLWidget_setFormat | QOpenGLDebugLogger_init => true
  | _ => false
  end.

(** Calls that create an object of the GL context. *)
Definition allocates_gpu (e : Event) : bool :=
  match e with
  | DDSFile_asQOpenGLTexture _ | QOpenGLShaderProgram_init _
  | QOpenGLVertexArrayObject_init | QOpenGLVertexArrayObject_Binder_init
  | QOpenGLBuffer_init | QOpenGLBuffer_create | QOpenGLBuffer_allocate _ _ => true
  | _ => false
  end.

Definition is_texture_upload (e : Event) : bool :=
  match e with
  | DDSFile_asQOpenGLTexture _ => true
  | _ => false
  end.

(** Calls that release an object of the GL context. *)
Definition is_destroy (e : Event) : bool :=
  match e with
  | QOpenGLTexture_destroy _ | QOpenGLBuffer_destroy | QOpenGLVertexArrayObject_destroy => true
  | _ => false
  end.

Definition is_qDebug (e : Event) : bool :=
  match e with
  | qDebug _ => true
  | _ => false
  end.

(** The shader-variant tags of the spec, and the sources each stands for. *)
Inductive ShaderVariant : Type :=
| Float2D
| UInt2D
| SInt2D
| Cubemap.

Definition variant_sources (v : ShaderVariant) : string * string :=
  match v with
  | Float2D => (vertexShader2D, fragmentShaderFloat)
  | UInt2D => (vertexShader2D, fragmentShaderUInt)
  | SInt2D => (vertexShader2D, fragmentShaderSInt)
  | Cubemap => (vertexShaderCube, fragmentShaderCube)
  end.

(** The specification's closed dispatch: the tag as a function of the cubemap
    flag and the sampler kind. *)
Definition spec_variant (cubemap : bool) (sampler : string) : ShaderVariant :=
  if cubemap then Cubemap
  else if (sampler =? "F")%string then Float2D
  else if (sampler =? "UI")%string then UInt2D
  else SInt2D.

(** A widget whose [initializeGL] has run (to its end, or up to a failed
    upload) and whose [cleanup] has not: the attributes [paintGL] and
    [cleanup] dereference hold objects. *)
Definition initialized (w : DDSWidget) : bool :=
  negb (clean w) && truthy (program w) && truthy (transparecyProgram w)
  && truthy (vbo w) && truthy (vao w).

(** The sources added to the program behind attribute [p], as the trace
    shows them. *)
Fixpoint shaders_added (p : ProgramAttr) (tr : list Event)
    : list (ShaderTypeBit * string) :=
  match tr with
  | [] => []
  | QOpenGLShaderProgram_addShaderFromSourceCode q t src :: rest =>
      match p, q with
      | self_program, self_program
      | self_transparecyProgram, self_transparecyProgram =>
          (t, src) :: shaders_added p rest
      | _, _ => shaders_added p rest
      end
  | _ :: rest => shaders_added p rest
  end.

(** The colours written to a uniform, as the trace shows them. *)
Fixpoint uniforms_set (tr : list Event) : list (ProgramAttr * string * QColor) :=
  match tr with
  | [] => []
  | QOpenGLShaderProgram_setUniformValue p n c :: rest => (p, n, c) :: uniforms_set rest
  | _ :: rest => uniforms_set rest
  end.

(** The calls that switch blending, as the trace shows them. *)
Definition is_blend_switch (e : Event) : bool :=
  match e with
  | glEnable GL_BLEND | glDisable GL_BLEND | glBlendFunc _ _ => true
  | _ => false
  end.

(** What a draw is told apart by: its arguments, the program in use and
    whether the vertex array is bound. *)
(** The triangles a draw call assembles from its vertices. *)
Definition triangles_drawn (d : Draw) : Z :=
  match drawMode d with
  | GL_TRIANGLES => drawCount d / 3
  | _ => 0
  end.

Definition draw_summary (d : Draw)
    : GLenum * Z * Z * option ProgramAttr * bool :=
  (drawMode d, drawFirst d, drawCount d, currentProgram (drawState d),
   vaoBound (drawState d)).

Definition is_logger_call (e : Event) : bool :=
  match e with
  | QOpenGLDebugLogger_init | QOpenGLDebugLogger_initialize
  | QOpenGLDebugLogger_messageLogged_connect _ | QOpenGLDebugLogger_startLogging => true
  | _ => false
  end.

(** The lambda of [initializeGL] as the specification of the logging words
    it, with [format] spelled out: each message formatted into the template
    and passed to [qDebug]. *)
Definition run_slot_formatting {S : Type} (s : Slot) (message : string) : M S unit :=
  match s with
  | LogDebugMessage =>
      (method <- str_getattr (DDSWidget_tr "OpenGL debug message: {0}") attr_format;;
       call (qDebug (method message)))%py
  end.

(** ** The rest of the plugin object, and further readings of a trace *)

(** [DDSPreview()], as [createPlugin] returns it: no organizer yet. *)
Definition createPlugin : DDSPreview := {| organizer := None |}.

(** The GL context state after the calls of a whole trace (program, texture
    and blending; for the vertex array see [GLState] above). *)
Definition gl_run (g : GLState) (tr : list Event) : GLState :=
  fold_left gl_step tr g.

Definition is_draw (e : Event) : bool :=
  match e with
  | glDrawArrays _ _ _ => true
  | _ => false
  end.

Definition is_texture_bind (e : Event) : bool :=
  match e with
  | QOpenGLTexture_bind _ => true
  | _ => false
  end.

(** The settings read from the host, in order, and the settings written. *)
Fixpoint host_reads (tr : list Event) : list (string * string) :=
  match tr with
  | [] => []
  | IOrganizer_pluginSetting n k :: rest => (n, k) :: host_reads rest
  | _ :: rest => host_reads rest
  end.

Fixpoint host_writes (tr : list Event) : list (string * string * PyVal) :=
  match tr with
  | [] => []
  | IOrganizer_setPluginSetting n k v :: rest => (n, k, v) :: host_writes rest
  | _ :: rest => host_writes rest
  end.

(** The capabilities switched on, in order. *)
Fixpoint enabled_caps (tr : list Event) : list GLenum :=
  match tr with
  | [] => []
  | glEnable c :: rest => c :: enabled_caps rest
  | _ :: rest => enabled_caps rest
  end.

(** One [glVertexAttribPointer] call. *)
Record AttribPointer : Type := {
  attribIndex : Z;
  attribSize : Z;
  attribType : GLenum;
  attribStride : Z;
  attribOffset : Z
}.

Fixpoint attrib_pointers (tr : list Event) : list AttribPointer :=
  match tr with
  | [] => []
  | glVertexAttribPointer i n t _ stride off :: rest =>
      {| attribIndex := i; attribSize := n; attribType := t;
         attribStride := stride; attribOffset := off |} :: attrib_pointers rest
  | _ :: rest => attrib_pointers rest
  end.

Fixpoint enabled_attrib_arrays (tr : list Event) : list Z :=
  match tr with
  | [] => []
  | glEnableVertexAttribArray i :: rest => i :: enabled_attrib_arrays rest
  | _ :: rest => enabled_attrib_arrays rest
  end.

(** Bytes of one component of a vertex attribute; only [GL_FLOAT] is a
    component type. *)
Definition component_bytes (t : GLenum) : option Z :=
  match t with
  | GL_FLOAT => Some 4
  | _ => None
  end.

(** The bytes attribute [a] spans inside one vertex, as a half-open range. *)
Definition attrib_range (a : AttribPointer) : option (Z * Z) :=
  match component_bytes (attribType a) with
  | Some b => Some (attribOffset a, attribOffset a + attribSize a * b)
  | None => None
  end.

(** A draw of vertices [first .. first+count-1] reads attribute [a] inside a
    buffer of [bytes] bytes. *)
Definition fetch_in_bounds (bytes : Z) (a : AttribPointer) (d : Draw) : bool :=
  match attrib_range a with
  | Some (lo, hi) =>
      (0 <=? lo) && (lo <? hi) && (hi <=? attribStride a)
      && (0 <=? drawFirst d) && (0 <=? drawCount d)
      && ((drawFirst d + drawCount d) * attribStride a <=? bytes)
  | None => false
  end.

(** The grid cells a child occupies. *)
Definition cells (row column rowSpan columnSpan : Z) : list (Z * Z) :=
  list_prod (map (fun i => row + Z.of_nat i) (seq 0 (Z.to_nat rowSpan)))
            (map (fun j => column + Z.of_nat j) (seq 0 (Z.to_nat columnSpan))).

Fixpoint grid_cells (tr : list Event) : list (Child * (Z * Z)) :=
  match tr with
  | [] => []
  | QGridLayout_addWidget c row col rs cs :: rest =>
      map (fun cell => (c, cell)) (cells row col rs cs) ++ grid_cells rest
  | _ :: rest => grid_cells rest
  end.

(** [needle] occurs in [hay]. *)
Definition occurs (needle hay : string) : bool :=
  match String.index 0 needle hay with
  | Some _ => true
  | None => false
  end.

(** The GLSL declaration an attribute or uniform name needs. *)
Definition declares (qualifier type_name name0 : string) (source : string) : bool :=
  occurs (qualifier ++ " " ++ type_name ++ " " ++ name0 ++ ";")%string source.

(** The GLSL type of a float attribute with [n] components. *)
Definition vec_type (n : Z) : string :=
  match n with
  | 2 => "vec2"
  | 3 => "vec3"
  | 4 => "vec4"
  | _ => "float"
  end.

(** The vertex shader among a program's shaders declares attribute [name0]
    with the type that the pointer set up for location [loc] feeds. *)
Definition attribute_declared (ptrs : list AttribPointer)
    (sources : list (ShaderTypeBit * string)) (binding : string * Z) : bool :=
  existsb (fun a =>
    (attribIndex a =? snd binding)
    && existsb (fun ts =>
         match fst ts with
         | Vertex => declares "in" (vec_type (attribSize a)) (fst binding) (snd ts)
         | Fragment => false
         end) sources) ptrs.

Definition uniform_declared (type_name name0 : string)
    (sources : list (ShaderTypeBit * string)) : bool :=
  existsb (fun ts =>
    match fst ts with
    | Fragment => declares "uniform" type_name name0 (snd ts)
    | Vertex => false
    end) sources.

(** Two setting values of the same Python type. *)
Definition same_type (a b : PyVal) : bool :=
  match a, b with
  | PyBool _, PyBool _ => true
  | PyInt _, PyInt _ => true
  | _, _ => false
  end.

(** Qt calling [initializeGL] [n] times, each call on the state the last one
    left, whatever its outcome. *)
Definition initializeGL_times (n : nat) (W : World) : World :=
  Nat.iter n (fun s => state (initializeGL s)) W.

(** ** Sample inputs *)

Definition sample_glFormat (sampler : string) : GLFormat :=
  {| samplerType := sampler; blockWidth := 1; blockHeight := 1;
     bytesPerBlockOrPixel := 4; isBlockCompressed := false |}.

(** A 4x4 RGBA8 texture with one mip level. *)
Definition sample_file : DDSFile :=
  {| fileName := "rgba8.dds"; width := 4; height := 4; mipMapCount := 1;
     channelMasks := [255; 65280; 16711680; 4278190080];
     contents := repeat Byte.xff 64;
     isCubemap := false; glFormat := sample_glFormat "F";
     description := "4x4 RGBA8" |}.

(** Two files that agree on [isCubemap] and [samplerType] and on nothing
    else. *)
Definition sample_uint_small : DDSFile :=
  {| fileName := "a.dds"; width := 4; height := 4; mipMapCount := 1;
     channelMasks := [255];
     contents := repeat Byte.x00 16;
     isCubemap := false; glFormat := sample_glFormat "UI";
     description := "4x4 R8UI" |}.

Definition sample_uint_large : DDSFile :=
  {| fileName := "b.dds"; width := 16; height := 8; mipMapCount := 5;
     channelMasks := [65535; 4294901760];
     contents := repeat Byte.x7f 512;
     isCubemap := false;
     glFormat := {| samplerType := "UI"; blockWidth := 1; blockHeight := 1;
                    bytesPerBlockOrPixel := 8; isBlockCompressed := false |};
     description := "16x8 RG16UI, 5 mips" |}.

(** A cubemap whose format samples unsigned integers. *)
Definition sample_cubemap : DDSFile :=
  {| fileName := "sky.dds"; width := 8; height := 8; mipMapCount := 2;
     channelMasks := [255];
     contents := repeat Byte.x01 480;
     isCubemap := true; glFormat := sample_glFormat "UI";
     description := "8x8 R8UI cubemap, 2 mips" |}.

Definition sample_texture : QOpenGLTexture :=
  {| textureId := 1; textureWidth := 4; textureHeight := 4 |}.

(** A host store with transparency on and a red channel out of range. *)
Definition sample_organizer : Organizer :=
  fun _ k =>
    if (k =? "transparency")%string then PyBool true
    else if (k =? "background r")%string then PyInt 300
    else if (k =? "log gl errors")%string then PyBool false
    else PyInt 0.

Definition sample_context : QOpenGLContext :=
  {| extensions := ["GL_ARB_seamless_cube_map"] |}.

Definition bare_context : QOpenGLContext := {| extensions := [] |}.

Definition sample_upload (f : DDSFile) : Res (option QOpenGLTexture) :=
  Ok (Some sample_texture).

Definition failing_upload (f : DDSFile) : Res (option QOpenGLTexture) :=
  Raise (DDSException UploadRejected).

Definition sample_load (n : string) : Res DDSFile :=
  if (n =? "rgba8.dds")%string then Ok sample_file
  else Raise (DDSException BadMagic).

Definition sample_translate (context str : string) : string := str.

Definition sample_plugin : DDSPreview := {| organizer := Some sample_organizer |}.

(** The widget [DDSWidget(self, ddsFile, False)] builds. *)
Definition fresh_widget (f : DDSFile) : DDSWidget :=
  {| ddsFile := f; clean := true; logger := None; program := None;
     transparecyProgram := None; texture := None; vbo := None; vao := None;
     format := [] |}.

(** The sample widget once [initializeGL] has run. *)
Definition sample_world : World :=
  {| ddsPreview := sample_plugin;
     widget :=
       {| ddsFile := sample_file;
          clean := false;
          logger := None;
          program :=
            Some {| shaders := [(Vertex, vertexShader2D); (Fragment, fragmentShaderFloat)];
                    attributeLocations := [("position", 0); ("texCoordIn", 1)];
                    linked := true;
                    backgroundColourUniform := None |};
          transparecyProgram :=
            Some {| shaders := [(Vertex, transparencyVS); (Fragment, transparencyFS)];
                    attributeLocations := [("position", 0)];
                    linked := true;
                    backgroundColourUniform := None |};
          texture := Some sample_texture;
          vbo := Some {| bufferCreated := true; bufferData := vertices;
                         bufferBytes := 144 |};
          vao := Some {| vaoCreated := true |};
          format := [] |} |}.

(** A GL context state before a paint: nothing bound, blending off. *)
Definition sample_GLState : GLState :=
  {| currentProgram := None; vaoBound := false; boundTexture := None;
     blendEnabled := false; blendFunc := (GL_SRC_ALPHA, GL_SRC_ALPHA) |}.

Unset Implicit Arguments.

(** ** Running a method symbolically *)

Ltac run_method :=
  cbv [bind ret get modify call raise foreign zoom self setattr program_call
       newProgram addShader bindAttribute linkProgram getProgram setProgram
       set_clean set_logger set_program set_transparecyProgram set_texture
       set_vbo set_vao set_format set_widget set_ddsPreview
       via_ddsPreview pluginSetting organizer_pluginSetting
       result state trace fst snd
       ddsPreview widget ddsFile clean logger program transparecyProgram
       texture vbo vao format organizer
       addShaderFromSourceCode bindAttributeLocation link setBackgroundColour
       emptyProgram shaders attributeLocations linked backgroundColourUniform
       loggerInitialized messageLogged logging
       truthy truthy_object truthy_QColor negb andb];
  cbn [app].

Ltac split_branch :=
  match goal with
  | |- context [if ?c then _ else _] => destruct c eqn:?
  | |- context [match asQOpenGLTexture ?f with _ => _ end] =>
      destruct (asQOpenGLTexture f) eqn:?
  | |- context [match load ?f with _ => _ end] => destruct (load f) eqn:?
  | |- context [match ?o with Some _ => _ | None => _ end] => destruct o eqn:?
  end.

Ltac run_all := run_method; repeat (split_branch; run_method).

(** ** The sources are pairwise distinct *)

Lemma string_neq (a b : string) : String.eqb a b = false -> a <> b.
Proof. intros H E. apply String.eqb_neq in H. contradiction. Qed.

Lemma variant_sources_inj (v v' : ShaderVariant) :
  variant_sources v' = variant_sources v -> v' = v.
Proof.
  intros H.
  assert (Hf : snd (variant_sources v') = snd (variant_sources v)) by (rewrite H; reflexivity).
  clear H.
  destruct v, v'; try reflexivity; cbn [variant_sources snd] in Hf;
    exfalso; revert Hf; apply string_neq; vm_compute; reflexivity.
Qed.

(** ** What [initializeGL] leaves behind *)

(** The program object [initializeGL] puts in [self.program]. *)
Lemma initializeGL_program (W : World) :
  let f := ddsFile (widget W) in
  let v := spec_variant (isCubemap f) (samplerType (glFormat f)) in
  program (widget (state (initializeGL W))) =
  Some {| shaders := [(Vertex, fst (variant_sources v)); (Fragment, snd (variant_sources v))];
          attributeLocations := [("position", 0); ("texCoordIn", 1)];
          linked := true;
          backgroundColourUniform := None |}.
Proof.
  destruct W as [pl [f cl lg pr tp tx vb va fm]].
  unfold initializeGL, selectShaders, spec_variant, variant_sources.
  run_all; reflexivity.
Qed.

(** The same two sources, as the calls of the trace show them. *)
Lemma initializeGL_shaders_added (W : World) :
  let f := ddsFile (widget W) in
  let v := spec_variant (isCubemap f) (samplerType (glFormat f)) in
  shaders_added self_program (trace (initializeGL W)) =
  [(Vertex, fst (variant_sources v)); (Fragment, snd (variant_sources v))].
Proof.
  destruct W as [pl [f cl lg pr tp tx vb va fm]].
  unfold initializeGL, selectShaders, spec_variant, variant_sources.
  run_all; reflexivity.
Qed.

Lemma initializeGL_transparecyProgram (W : World) :
  transparecyProgram (widget (state (initializeGL W))) =
  Some {| shaders := [(Vertex, transparencyVS); (Fragment, transparencyFS)];
          attributeLocations := [("position", 0)];
          linked := true;
          backgroundColourUniform := None |}.
Proof.
  destruct W as [pl [f cl lg pr tp tx vb va fm]].
  unfold initializeGL, selectShaders.
  run_all; reflexivity.
Qed.

Lemma initializeGL_buffers (W : World) :
  vbo (widget (state (initializeGL W))) =
    Some {| bufferCreated := true; bufferData := vertices; bufferBytes := 144 |}
  /\ vao (widget (state (initializeGL W))) = Some {| vaoCreated := true |}
  /\ clean (widget (state (initializeGL W))) = false
  /\ ddsFile (widget (state (initializeGL W))) = ddsFile (widget W)
  /\ ddsPreview (state (initializeGL W)) = ddsPreview W.
Proof.
  destruct W as [pl [f cl lg pr tp tx vb va fm]].
  unfold initializeGL, selectShaders.
  run_all; repeat split; reflexivity.
Qed.

(** Whether or not the upload raises, the widget is left initialized. *)
Lemma initializeGL_initialized (W : World) :
  initialized (widget (state (initializeGL W))) = true.
Proof.
  unfold initialized.
  rewrite initializeGL_program, initializeGL_transparecyProgram.
  destruct (initializeGL_buffers W) as (-> & -> & -> & _).
  reflexivity.
Qed.

(** The upload is the last call of [initializeGL], and the only upload; its
    outcome is the method's. *)
Lemma initializeGL_upload (W : World) :
  let f := ddsFile (widget W) in
  filter is_texture_upload (trace (initializeGL W)) = [DDSFile_asQOpenGLTexture f]
  /\ (exists before, trace (initializeGL W) = before ++ [DDSFile_asQOpenGLTexture f])
  /\ result (initializeGL W) =
       match asQOpenGLTexture f with Ok _ => Ok tt | Raise e => Raise e end
  /\ texture (widget (state (initializeGL W))) =
       match asQOpenGLTexture f with Ok t => t | Raise _ => texture (widget W) end.
Proof.
  destruct W as [pl [f cl lg pr tp tx vb va fm]].
  unfold initializeGL, selectShaders.
  run_all; cbn [filter is_texture_upload];
    (split; [reflexivity | split; [| split; reflexivity]]);
    match goal with
    | |- exists before, ?t = before ++ _ => exists (removelast t); reflexivity
    end.
Qed.

(** ** What [paintGL] and [cleanup] do on an initialized widget *)

(** The colour [getBackgroundColour] builds from the host's store. *)
Definition backgroundColour_of (o : Organizer) : QColor :=
  QColor_init (as_int (o name "background r")) (as_int (o name "background g"))
              (as_int (o name "background b")) (as_int (o name "background a")).

Lemma initialized_inv (w : DDSWidget) :
  initialized w = true ->
  clean w = false
  /\ exists p tp b v,
       program w = Some p /\ transparecyProgram w = Some tp
       /\ vbo w = Some b /\ vao w = Some v.
Proof.
  unfold initialized, truthy, truthy_object.
  destruct w as [f cl lg [p|] [tp|] tx [b|] [v|] fm]; cbn;
    rewrite ?andb_false_r; try discriminate.
  destruct cl; cbn; try discriminate.
  intros _. split; [reflexivity | exists p, tp, b, v; repeat split].
Qed.

Lemma getBackgroundColour_run (p : DDSPreview) (o : Organizer) :
  organizer p = Some o ->
  getBackgroundColour p =
  (Ok (backgroundColour_of o), p,
   [IOrganizer_pluginSetting name "background r";
    IOrganizer_pluginSetting name "background g";
    IOrganizer_pluginSetting name "background b";
    IOrganizer_pluginSetting name "background a"]).
Proof.
  destruct p as [og]; cbn [organizer]; intros ->.
  unfold getBackgroundColour, backgroundColour_of. run_all. reflexivity.
Qed.

Lemma getTransparency_run (p : DDSPreview) (o : Organizer) :
  organizer p = Some o ->
  getTransparency p =
  (Ok (o name "transparency"), p, [IOrganizer_pluginSetting name "transparency"]).
Proof.
  destruct p as [og]; cbn [organizer]; intros ->.
  unfold getTransparency. run_all. reflexivity.
Qed.

Lemma paintGL_run (W : World) (o : Organizer) :
  organizer (ddsPreview W) = Some o ->
  initialized (widget W) = true ->
  let c := backgroundColour_of o in
  paintGL W =
  (Ok tt,
   set_widget
     (set_transparecyProgram
        (option_map (fun tp => if isValid c then setBackgroundColour c tp else tp)
                    (transparecyProgram (widget W)))
        (widget W)) W,
   [QOpenGLVersionFunctionsFactory_get;
    QOpenGLVertexArrayObject_Binder_init;
    QOpenGLShaderProgram_bind self_transparecyProgram;
    IOrganizer_pluginSetting name "background r";
    IOrganizer_pluginSetting name "background g";
    IOrganizer_pluginSetting name "background b";
    IOrganizer_pluginSetting name "background a"]
   ++ (if isValid c
       then [QOpenGLShaderProgram_setUniformValue self_transparecyProgram
               "backgroundColour" c]
       else [])
   ++ [glDrawArrays GL_TRIANGLES 0 6;
       QOpenGLShaderProgram_release self_transparecyProgram;
       QOpenGLShaderProgram_bind self_program]
   ++ match texture (widget W) with Some t => [QOpenGLTexture_bind t] | None => [] end
   ++ [IOrganizer_pluginSetting name "transparency"]
   ++ (if truthy (o name "transparency")
       then [glEnable GL_BLEND; glBlendFunc GL_SRC_ALPHA GL_ONE_MINUS_SRC_ALPHA]
       else [glDisable GL_BLEND])
   ++ [glDrawArrays GL_TRIANGLES 0 6]
   ++ match texture (widget W) with Some t => [QOpenGLTexture_release t] | None => [] end
   ++ [QOpenGLShaderProgram_release self_program]).
Proof.
  intros Ho Hi.
  destruct (initialized_inv _ Hi) as (Hc & p & tp & b & v & Hp & Htp & Hb & Hv).
  destruct W as [[og] [f cl lg pr tpx tx vb va fm]].
  cbn [ddsPreview widget organizer program transparecyProgram vbo vao clean] in *.
  subst.
  unfold paintGL, getBackgroundColour, getTransparency, backgroundColour_of, option_map.
  run_all; first [reflexivity | congruence].
Qed.

Lemma cleanup_run (W : World) :
  initialized (widget W) = true ->
  cleanup W =
  (Ok tt,
   set_widget
     (set_clean true (set_vao None (set_vbo None (set_texture None
        (set_transparecyProgram None (set_program None (widget W))))))) W,
   [QOpenGLWidget_makeCurrent]
   ++ match texture (widget W) with Some t => [QOpenGLTexture_destroy t] | None => [] end
   ++ [QOpenGLBuffer_destroy; QOpenGLVertexArrayObject_destroy;
       QOpenGLWidget_doneCurrent]).
Proof.
  intros Hi.
  destruct (initialized_inv _ Hi) as (Hc & p & tp & b & v & Hp & Htp & Hb & Hv).
  destruct W as [pl [f cl lg pr tpx tx vb va fm]].
  cbn [ddsPreview widget program transparecyProgram vbo vao clean] in *.
  subst.
  unfold cleanup.
  run_all; reflexivity.
Qed.

(** Once [clean] is set, [cleanup] touches nothing and calls nothing. *)
Lemma cleanup_clean (W : World) :
  clean (widget W) = true -> cleanup W = (Ok tt, W, []).
Proof.
  destruct W as [pl [f cl lg pr tpx tx vb va fm]].
  cbn [widget clean]. intros ->.
  unfold cleanup. run_all. reflexivity.
Qed.

Lemma teardown_is_cleanup (t : Teardown) : teardown t = cleanup.
Proof. destruct t; reflexivity. Qed.

Lemma teardowns_clean (ts : list Teardown) (W : World) :
  clean (widget W) = true -> teardowns ts W = (Ok tt, W, []).
Proof.
  intros Hc. induction ts as [|t ts IH]; [reflexivity|].
  cbn [teardowns]. rewrite teardown_is_cleanup.
  unfold bind. rewrite (cleanup_clean W Hc), IH. reflexivity.
Qed.

(** Without any assumption on the widget: a second [cleanup] right after a
    first adds nothing, also when the first raised or found [clean] set. *)
Lemma cleanup_twice (W : World) :
  (cleanup;; cleanup)%py W = cleanup W.
Proof.
  destruct W as [pl [f [|] lg pr tpx tx vb va fm]];
    unfold cleanup; run_all; reflexivity.
Qed.

(** The widget reads the store of the one plugin object: after the check
    box's slot has stored its value, the next paint blends accordingly. *)
Lemma paintGL_after_toggleTransparency (W : World) (o : Organizer) (g : GLState)
    (isChecked : bool) :
  organizer (ddsPreview W) = Some o ->
  initialized (widget W) = true ->
  let W' := state (via_ddsPreview (toggleTransparency isChecked) W) in
  map (fun d => blendEnabled (drawState d)) (draws g (trace (paintGL W'))) =
  [blendEnabled g; negb isChecked].
Proof.
  intros Ho Hi W'.
  assert (HW' : exists o', organizer (ddsPreview W') = Some o'
                           /\ o' name "transparency" = PyBool (negb isChecked)
                           /\ widget W' = widget W).
  { subst W'. destruct W as [[og] w]. cbn [ddsPreview organizer] in Ho. subst og.
    unfold toggleTransparency, setPluginSetting. run_method.
    eexists. split; [reflexivity|]. split; reflexivity. }
  destruct HW' as (o' & Ho' & Hval & Hw).
  assert (Hi' : initialized (widget W') = true) by (rewrite Hw; exact Hi).
  rewrite (paintGL_run W' o' Ho' Hi'). cbn [trace snd]. rewrite Hval.
  destruct (isValid (backgroundColour_of o')), isChecked, (texture (widget W'));
    reflexivity.
Qed.

(** ** Specification theorems *)

(** C1: for every loaded file, [initializeGL] puts in [self.program] exactly
    the vertex and fragment source of one of the four variants Float2D,
    UInt2D, SInt2D, Cubemap, and that variant is read off [isCubemap] and
    [glFormat.samplerType] alone: the cubemap pair when [isCubemap] is set,
    whatever the sampler; otherwise the 2D vertex shader with the float
    fragment shader for "F", the unsigned one for "UI", the signed one for
    anything else. *)
Theorem C1_initializeGL_selects_one_variant (W : World) :
  let f := ddsFile (widget W) in
  let v := spec_variant (isCubemap f) (samplerType (glFormat f)) in
  let pair_of := fun v' : ShaderVariant =>
    [(Vertex, fst (variant_sources v')); (Fragment, snd (variant_sources v'))] in
  let selected := option_map shaders (program (widget (state (initializeGL W)))) in
  selected = Some (pair_of v)
  /\ shaders_added self_program (trace (initializeGL W)) = pair_of v
  /\ (forall v', selected = Some (pair_of v') -> v' = v)
  /\ (isCubemap f = true ->
      selected = Some [(Vertex, vertexShaderCube); (Fragment, fragmentShaderCube)])
  /\ (isCubemap f = false -> samplerType (glFormat f) = "F" ->
      selected = Some [(Vertex, vertexShader2D); (Fragment, fragmentShaderFloat)])
  /\ (isCubemap f = false -> samplerType (glFormat f) = "UI" ->
      selected = Some [(Vertex, vertexShader2D); (Fragment, fragmentShaderUInt)])
  /\ (isCubemap f = false -> samplerType (glFormat f) <> "F" ->
      samplerType (glFormat f) <> "UI" ->
      selected = Some [(Vertex, vertexShader2D); (Fragment, fragmentShaderSInt)]).
Proof.
  intros f v pair_of selected.
  assert (Hsel : selected = Some (pair_of v)).
  { unfold selected. rewrite initializeGL_program. reflexivity. }
  split; [exact Hsel|].
  split; [exact (initializeGL_shaders_added W)|].
  split.
  { intros v' Hv'. rewrite Hsel in Hv'. unfold pair_of in Hv'.
    apply variant_sources_inj.
    injection Hv' as Hv Hf.
    rewrite (surjective_pairing (variant_sources v')),
            (surjective_pairing (variant_sources v)).
    congruence. }
  rewrite Hsel. unfold pair_of, v, spec_variant.
  repeat split.
  - intros ->. reflexivity.
  - intros -> ->. reflexivity.
  - intros -> ->. reflexivity.
  - intros -> HF HUI.
    apply String.eqb_neq in HF, HUI. rewrite HF, HUI. reflexivity.
Qed.

(** C3: on an initialized widget the first [cleanup], whichever hook runs it,
    returns normally, destroys the texture (when there is one), the vertex
    buffer and the vertex array object, each once, sets the three attributes
    to [None] and sets [clean]; a later [cleanup] leaves the state as it is
    and calls nothing, so two cleanups in a row, and any longer run of
    teardown hooks, equal a single cleanup. *)
Theorem C3_cleanup_releases_once_and_is_idempotent (W : World) :
  initialized (widget W) = true ->
  let once := cleanup W in
  result once = Ok tt
  /\ filter is_destroy (trace once) =
       match texture (widget W) with
       | Some t => [QOpenGLTexture_destroy t]
       | None => []
       end ++ [QOpenGLBuffer_destroy; QOpenGLVertexArrayObject_destroy]
  /\ texture (widget (state once)) = None
  /\ vbo (widget (state once)) = None
  /\ vao (widget (state once)) = None
  /\ clean (widget (state once)) = true
  /\ cleanup (state once) = (Ok tt, state once, [])
  /\ (cleanup;; cleanup)%py W = once
  /\ (forall t ts, teardowns (t :: ts) W = once).
Proof.
  intros Hi once.
  assert (Hrun := cleanup_run W Hi). fold once in Hrun.
  assert (Hclean : clean (widget (state once)) = true) by (rewrite Hrun; reflexivity).
  assert (Hagain := cleanup_clean (state once) Hclean).
  split; [rewrite Hrun; reflexivity|].
  split; [rewrite Hrun; cbn [trace snd]; destruct (texture (widget W)); reflexivity|].
  do 4 (split; [rewrite Hrun; reflexivity|]).
  split; [exact Hagain|].
  assert (Hres : forall k : M World unit,
            k (state once) = (Ok tt, state once, []) -> (cleanup;; k)%py W = once).
  { intros k Hk. unfold bind. fold once.
    destruct once as [[r s1] t1] eqn:E. cbn [state fst snd] in Hk.
    injection Hrun as -> _ _. rewrite Hk, app_nil_r. reflexivity. }
  split; [apply Hres, Hagain|].
  intros t ts. cbn [teardowns]. rewrite teardown_is_cleanup.
  apply Hres, teardowns_clean, Hclean.
Qed.

(** C5: every paint of an initialized widget returns normally after exactly
    two draw calls, both [glDrawArrays(GL_TRIANGLES, 0, 6)] with the vertex
    array bound: the first with [transparecyProgram] in use, the second with
    [program] in use; each assembles two triangles, the six vertices being
    those of the 36-float quad (six floats each), and the paint leaves both
    programs' shaders and the widget's initialized state as they were. *)
Theorem C5_paintGL_draws_checkerboard_then_texture (W : World) (o : Organizer)
    (g : GLState) :
  organizer (ddsPreview W) = Some o ->
  initialized (widget W) = true ->
  let paint := paintGL W in
  result paint = Ok tt
  /\ map draw_summary (draws g (trace paint)) =
       [(GL_TRIANGLES, 0, 6, Some self_transparecyProgram, true);
        (GL_TRIANGLES, 0, 6, Some self_program, true)]
  /\ map triangles_drawn (draws g (trace paint)) = [2; 2]
  /\ Z.of_nat (length vertices) = 6 * 6
  /\ option_map shaders (program (widget (state paint))) =
       option_map shaders (program (widget W))
  /\ option_map shaders (transparecyProgram (widget (state paint))) =
       option_map shaders (transparecyProgram (widget W))
  /\ initialized (widget (state paint)) = true.
Proof.
  intros Ho Hi paint.
  assert (Hrun := paintGL_run W o Ho Hi). cbv zeta in Hrun. fold paint in Hrun.
  destruct (initialized_inv _ Hi) as (Hc & p & tp & b & v & Hp & Htp & Hb & Hv).
  rewrite Hrun. cbn [result state trace fst snd].
  split; [reflexivity|].
  split.
  { destruct (isValid (backgroundColour_of o)), (truthy (o name "transparency")),
      (texture (widget W)); reflexivity. }
  split.
  { destruct (isValid (backgroundColour_of o)), (truthy (o name "transparency")),
      (texture (widget W)); reflexivity. }
  split; [reflexivity|].
  destruct W as [pl [f cl lg pr tpx tx vb va fm]].
  cbn [widget program transparecyProgram vbo vao clean] in *. subst.
  destruct (isValid (backgroundColour_of o)); repeat split; reflexivity.
Qed.

(** C6: on every paint of an initialized widget the texture pass (the second
    draw, with [program] in use) runs with blending enabled exactly when the
    stored "transparency" setting is true at that paint, whatever the blend
    state before the paint; when enabled the factors are SRC_ALPHA and
    ONE_MINUS_SRC_ALPHA, set by the paint; when the setting is false the
    paint calls [glDisable(GL_BLEND)] before that draw. *)
Theorem C6_texture_pass_blends_iff_transparency (W : World) (o : Organizer)
    (g : GLState) :
  organizer (ddsPreview W) = Some o ->
  initialized (widget W) = true ->
  let on := truthy (o name "transparency") in
  exists checkerboard texturePass,
    draws g (trace (paintGL W)) = [checkerboard; texturePass]
    /\ currentProgram (drawState texturePass) = Some self_program
    /\ blendEnabled (drawState texturePass) = on
    /\ (on = true ->
        blendFunc (drawState texturePass) = (GL_SRC_ALPHA, GL_ONE_MINUS_SRC_ALPHA))
    /\ filter is_blend_switch (trace (paintGL W)) =
         if on then [glEnable GL_BLEND; glBlendFunc GL_SRC_ALPHA GL_ONE_MINUS_SRC_ALPHA]
         else [glDisable GL_BLEND].
Proof.
  intros Ho Hi on.
  assert (Hrun := paintGL_run W o Ho Hi). cbv zeta in Hrun.
  rewrite Hrun. cbn [trace snd]. subst on.
  destruct (isValid (backgroundColour_of o)), (truthy (o name "transparency")),
    (texture (widget W));
    cbn [app draws gl_step]; do 2 eexists;
    (split; [reflexivity|]); cbn;
    repeat split; try reflexivity; intros; try reflexivity; discriminate.
Qed.

(** C10: a paint of an initialized widget writes the "backgroundColour"
    uniform of the checkerboard program exactly when the [QColor] built from
    the four stored channels is valid (such an object is always true); when
    it is invalid no uniform is written and the program keeps the value it
    had, so every colour that reaches the shader is valid. *)
Theorem C10_invalid_background_colour_is_skipped (W : World) (o : Organizer) :
  organizer (ddsPreview W) = Some o ->
  initialized (widget W) = true ->
  let c := backgroundColour_of o in
  let paint := paintGL W in
  truthy c = true
  /\ result paint = Ok tt
  /\ uniforms_set (trace paint) =
       (if isValid c then [(self_transparecyProgram, "backgroundColour", c)] else [])
  /\ option_map backgroundColourUniform (transparecyProgram (widget (state paint))) =
       option_map (fun tp => if isValid c then Some c else backgroundColourUniform tp)
                  (transparecyProgram (widget W))
  /\ (isValid c = false ->
      transparecyProgram (widget (state paint)) = transparecyProgram (widget W))
  /\ forallb (fun u => isValid (snd u)) (uniforms_set (trace paint)) = true.
Proof.
  intros Ho Hi c paint.
  assert (Hrun := paintGL_run W o Ho Hi). cbv zeta in Hrun. fold c paint in Hrun.
  destruct (initialized_inv _ Hi) as (Hc & p & tp & b & v & Hp & Htp & Hb & Hv).
  rewrite Hrun. cbn [result state trace fst snd].
  destruct W as [pl [f cl lg pr tpx tx vb va fm]].
  cbn [widget program transparecyProgram vbo vao clean texture] in *. subst.
  split; [reflexivity|].
  split; [reflexivity|].
  destruct (isValid c) eqn:Hvalid, (truthy (o name "transparency")), tx;
    cbn; rewrite ?Hvalid; repeat split; try reflexivity; discriminate.
Qed.

(** No method other than [initializeGL] uploads a texture. *)
Lemma paintGL_no_upload (W : World) :
  existsb is_texture_upload (trace (paintGL W)) = false.
Proof.
  destruct W as [[og] [f cl lg pr tpx tx vb va fm]].
  unfold paintGL, getBackgroundColour, getTransparency.
  run_all; reflexivity.
Qed.

Lemma cleanup_no_upload (W : World) :
  existsb is_texture_upload (trace (cleanup W)) = false.
Proof.
  destruct W as [pl [f cl lg pr tpx tx vb va fm]].
  unfold cleanup.
  run_all; reflexivity.
Qed.

Ltac run_genFilePreview :=
  unfold genFilePreview, makeLabel, makeColourButton, makeToggleTransparencyButton,
    getTransparency, DDSWidget_init;
  run_all.

(** C2: [genFilePreview] decodes first.  When [load] raises, the exception is
    the method's outcome and the only calls made are the two of the decode:
    nothing of the panel is built and nothing is allocated in the GL context.
    When [load] returns, every other call comes after it and none allocates
    in the GL context: the widget handed back holds the decoded file and no
    texture, and the one upload is the call [initializeGL] makes on that very
    file; neither [paintGL] nor [cleanup] uploads. *)
Theorem C2_decode_precedes_widget_and_upload (p : DDSPreview) (fileName0 : string)
    (maxSize : Z * Z) :
  let run := genFilePreview fileName0 maxSize p in
  match load fileName0 with
  | Raise e =>
      result run = Raise e
      /\ trace run = [DDSFile_init fileName0; DDSFile_load fileName0]
      /\ existsb builds_panel (trace run) = false
      /\ existsb allocates_gpu (trace run) = false
  | Ok f =>
      (exists rest,
         trace run = DDSFile_init fileName0 :: DDSFile_load fileName0 :: rest)
      /\ existsb allocates_gpu (trace run) = false
      /\ match result run with
         | Ok panel =>
             ddsFile (panelDDSWidget panel) = f
             /\ texture (panelDDSWidget panel) = None
             /\ (forall pl,
                  filter is_texture_upload
                    (trace (initializeGL
                              {| ddsPreview := pl; widget := panelDDSWidget panel |})) =
                  [DDSFile_asQOpenGLTexture f])
             /\ (forall W, existsb is_texture_upload (trace (paintGL W)) = false)
             /\ (forall W, existsb is_texture_upload (trace (cleanup W)) = false)
         | Raise _ => True
         end
  end.
Proof.
  destruct p as [og].
  run_genFilePreview;
    repeat match goal with
    | |- _ /\ _ => split
    | |- exists _, _ => eexists
    | |- True => exact I
    | |- forall W : World, _ => first [exact paintGL_no_upload | exact cleanup_no_upload]
    | |- forall pl : DDSPreview, _ =>
        intros pl;
        match goal with
        | |- context [initializeGL ?W] => exact (proj1 (initializeGL_upload W))
        end
    | |- _ = _ => reflexivity
    end.
Qed.

(** C7: [settings] declares exactly six settings, under pairwise distinct
    keys: "log gl errors" (default [False]), "background r", "background g",
    "background b", "background a" (each default 0) and "transparency"
    (default [True]).  [getBackgroundColour] reads the four channels and hands
    them, as stored, to [QColor]; [getTransparency] hands back the stored
    value; neither changes the store, and each key read is a declared one. *)
Theorem C7_six_settings_read_back_as_stored (o : Organizer) :
  let p := {| organizer := Some o |} in
  map (fun s => (key s, default s)) settings =
    [("log gl errors", PyBool false);
     ("background r", PyInt 0);
     ("background g", PyInt 0);
     ("background b", PyInt 0);
     ("background a", PyInt 0);
     ("transparency", PyBool true)]
  /\ length settings = 6%nat
  /\ NoDup (map key settings)
  /\ getBackgroundColour p =
       (Ok (QColor_init (as_int (o name "background r")) (as_int (o name "background g"))
                        (as_int (o name "background b")) (as_int (o name "background a"))),
        p,
        [IOrganizer_pluginSetting name "background r";
         IOrganizer_pluginSetting name "background g";
         IOrganizer_pluginSetting name "background b";
         IOrganizer_pluginSetting name "background a"])
  /\ getTransparency p =
       (Ok (o name "transparency"), p, [IOrganizer_pluginSetting name "transparency"])
  /\ forallb (fun k => existsb (String.eqb k) (map key settings))
       ["log gl errors"; "background r"; "background g"; "background b";
        "background a"; "transparency"] = true.
Proof.
  intros p.
  split; [reflexivity|].
  split; [reflexivity|].
  split.
  { cbn [map settings key].
    repeat (constructor; [cbn [In]; intros H;
      repeat (destruct H as [H|H]; [discriminate H|]); exact H|]).
    constructor. }
  split; [exact (getBackgroundColour_run p o eq_refl)|].
  split; [exact (getTransparency_run p o eq_refl)|].
  vm_compute. reflexivity.
Qed.

(** C8 (what the code does): with the "log gl errors" value [True] the
    widget asks for a debug context and creates a logger, and [initializeGL]
    initializes it, connects the lambda and starts logging; but a debug
    message then makes the lambda raise [AttributeError] (a [str] has no
    attribute [fomat]) before [qDebug] is reached, so nothing is logged.
    Spelled [format], the same lambda would pass the formatted message to
    [qDebug].  With the value [False] no logger exists, [initializeGL] makes
    no logger call, and a message runs no slot. *)
Theorem C8_debug_message_raises_before_qDebug (pl : DDSPreview) (f : DDSFile)
    (message : string) :
  let built := DDSWidget_init (S:=DDSPreview) f (PyBool true) pl in
  let plain := DDSWidget_init (S:=DDSPreview) f (PyBool false) pl in
  trace built =
    [QOpenGLWidget_init; QSurfaceFormat_init; QSurfaceFormat_setOption DebugContext;
     QOpenGLWidget_setFormat; QOpenGLDebugLogger_init]
  /\ match result built with
     | Ok w =>
         let W := state (initializeGL {| ddsPreview := pl; widget := w |}) in
         format w = [DebugContext]
         /\ logger (widget W) =
              Some {| loggerInitialized := true; messageLogged := [LogDebugMessage];
                      logging := true |}
         /\ messageLogged_emit message W = (Raise (AttributeError "str" "fomat"), W, [])
         /\ existsb is_qDebug (trace (messageLogged_emit message W)) = false
     | Raise _ => False
     end
  /\ run_slot_formatting LogDebugMessage message pl =
       (Ok tt, pl,
        [qDebug (str_format (DDSWidget_tr "OpenGL debug message: {0}") message)])
  /\ match result plain with
     | Ok w =>
         let W := state (initializeGL {| ddsPreview := pl; widget := w |}) in
         format w = [] /\ logger w = None /\ logger (widget W) = None
         /\ existsb is_logger_call
              (trace plain ++ trace (initializeGL {| ddsPreview := pl; widget := w |})) = false
         /\ messageLogged_emit message W = (Ok tt, W, [])
     | Raise _ => False
     end.
Proof.
  unfold DDSWidget_init, run_slot_formatting, str_getattr.
  cbv [truthy truthy_PyVal].
  unfold initializeGL, selectShaders, messageLogged_emit.
  run_all; cbn [run_slots run_slot str_getattr StrAttr_name]; run_method;
    repeat split; reflexivity.
Qed.

(** ** Further properties of the widget *)

(** The calls of [initializeGL], in closed form: they depend on the widget
    only through its file and the presence of a logger. *)
Lemma initializeGL_trace (W : World) :
  let f := ddsFile (widget W) in
  let v := spec_variant (isCubemap f) (samplerType (glFormat f)) in
  trace (initializeGL W) =
  (if truthy (logger (widget W))
   then [QOpenGLDebugLogger_initialize;
         QOpenGLDebugLogger_messageLogged_connect LogDebugMessage;
         QOpenGLDebugLogger_startLogging]
   else [])
  ++ [QOpenGLVersionFunctionsFactory_get; QOpenGLContext_aboutToBeDestroyed_connect]
  ++ (if isCubemap f && hasExtension currentContext "GL_ARB_seamless_cube_map"
      then [glEnable GL_TEXTURE_CUBE_MAP_SEAMLESS] else [])
  ++ [QOpenGLShaderProgram_init self_program;
      QOpenGLShaderProgram_addShaderFromSourceCode self_program Vertex
        (fst (variant_sources v));
      QOpenGLShaderProgram_addShaderFromSourceCode self_program Fragment
        (snd (variant_sources v));
      QOpenGLShaderProgram_bindAttributeLocation self_program "position" 0;
      QOpenGLShaderProgram_bindAttributeLocation self_program "texCoordIn" 1;
      QOpenGLShaderProgram_link self_program;
      QOpenGLShaderProgram_init self_transparecyProgram;
      QOpenGLShaderProgram_addShaderFromSourceCode self_transparecyProgram Vertex
        transparencyVS;
      QOpenGLShaderProgram_addShaderFromSourceCode self_transparecyProgram Fragment
        transparencyFS;
      QOpenGLShaderProgram_bindAttributeLocation self_transparecyProgram "position" 0;
      QOpenGLShaderProgram_link self_transparecyProgram;
      QOpenGLVertexArrayObject_init;
      QOpenGLVertexArrayObject_Binder_init;
      QOpenGLBuffer_init;
      QOpenGLBuffer_create;
      QOpenGLBuffer_bind;
      QOpenGLBuffer_allocate vertices 144;
      glEnableVertexAttribArray 0;
      glEnableVertexAttribArray 1;
      glVertexAttribPointer 0 4 GL_FLOAT false 24 0;
      glVertexAttribPointer 1 2 GL_FLOAT false 24 16;
      DDSFile_asQOpenGLTexture f].
Proof.
  destruct W as [pl [f cl lg pr tp tx vb va fm]].
  unfold initializeGL, selectShaders, spec_variant, variant_sources.
  run_all; first [reflexivity | congruence].
Qed.

(** What [initializeGL] does to the logger and the attributes it does not
    assign. *)
Lemma initializeGL_logger (W : World) :
  logger (widget (state (initializeGL W))) =
    option_map (fun l => {| loggerInitialized := true;
                            messageLogged := messageLogged l ++ [LogDebugMessage];
                            logging := true |})
               (logger (widget W))
  /\ format (widget (state (initializeGL W))) = format (widget W).
Proof.
  destruct W as [pl [f cl lg pr tp tx vb va fm]].
  unfold initializeGL, selectShaders.
  run_all; split; reflexivity.
Qed.

(** X1: the constructor returns a widget for every file and every value of
    [debugContext], with [clean] set and no GL object; it holds a logger,
    and has asked for a debug context, exactly when [debugContext] is true
    in Python's sense (a non-zero [int] counts); it makes no call that
    allocates in the GL context, and the widget is not yet initialized. *)
Theorem X1_constructor_allocates_nothing (S : Type) (s : S) (f : DDSFile)
    (debugContext : PyVal) :
  exists w tr,
    DDSWidget_init f debugContext s = (Ok w, s, tr)
    /\ ddsFile w = f
    /\ clean w = true
    /\ program w = None /\ transparecyProgram w = None
    /\ texture w = None /\ vbo w = None /\ vao w = None
    /\ truthy (logger w) = truthy debugContext
    /\ format w = (if truthy debugContext then [DebugContext] else [])
    /\ existsb is_logger_call tr = truthy debugContext
    /\ existsb allocates_gpu tr = false
    /\ initialized w = false.
Proof.
  unfold DDSWidget_init.
  run_method. fold (truthy debugContext).
  destruct (truthy debugContext); run_method; do 2 eexists;
    repeat split; reflexivity.
Qed.

(** X2: tearing down a widget that was built and never GL-initialized, by any
    run of the destructor hooks and the context's signal, makes no call (not
    even [makeCurrent]) and changes nothing. *)
Theorem X2_teardown_before_initializeGL_is_silent (pl : DDSPreview) (f : DDSFile)
    (debugContext : PyVal) (ts : list Teardown) :
  match result (DDSWidget_init f debugContext pl) with
  | Ok w =>
      teardowns ts {| ddsPreview := pl; widget := w |} =
      (Ok tt, {| ddsPreview := pl; widget := w |}, [])
  | Raise _ => False
  end.
Proof.
  unfold DDSWidget_init.
  run_method. fold (truthy debugContext).
  destruct (truthy debugContext); run_method; apply teardowns_clean; reflexivity.
Qed.

(** X3: [initializeGL] switches on seamless cubemap filtering exactly when the
    file is a cubemap and the context lists GL_ARB_seamless_cube_map; a
    context without the extension is no error, and [initializeGL] never
    touches blending. *)
Theorem X3_seamless_only_for_cubemaps_with_extension (W : World) :
  let f := ddsFile (widget W) in
  enabled_caps (trace (initializeGL W)) =
    (if isCubemap f && hasExtension currentContext "GL_ARB_seamless_cube_map"
     then [GL_TEXTURE_CUBE_MAP_SEAMLESS] else [])
  /\ filter is_blend_switch (trace (initializeGL W)) = []
  /\ result (initializeGL W) =
       match asQOpenGLTexture f with Ok _ => Ok tt | Raise e => Raise e end.
Proof.
  intros f.
  split; [|split].
  - rewrite initializeGL_trace. fold f.
    destruct (truthy (logger (widget W))),
      (isCubemap f && hasExtension currentContext "GL_ARB_seamless_cube_map");
      reflexivity.
  - rewrite initializeGL_trace. fold f.
    destruct (truthy (logger (widget W))),
      (isCubemap f && hasExtension currentContext "GL_ARB_seamless_cube_map");
      reflexivity.
  - exact (proj1 (proj2 (proj2 (initializeGL_upload W)))).
Qed.

(** X4: every [initializeGL] creates two shader programs, one vertex array
    object, one vertex buffer of 144 bytes holding [vertices], and asks for
    one texture, in this order; it destroys nothing, draws nothing and
    neither reads nor writes a setting. *)
Theorem X4_initializeGL_allocations (W : World) :
  let tr := trace (initializeGL W) in
  filter allocates_gpu tr =
    [QOpenGLShaderProgram_init self_program;
     QOpenGLShaderProgram_init self_transparecyProgram;
     QOpenGLVertexArrayObject_init;
     QOpenGLVertexArrayObject_Binder_init;
     QOpenGLBuffer_init;
     QOpenGLBuffer_create;
     QOpenGLBuffer_allocate vertices (4 * Z.of_nat (length vertices));
     DDSFile_asQOpenGLTexture (ddsFile (widget W))]
  /\ existsb is_destroy tr = false
  /\ existsb is_draw tr = false
  /\ host_reads tr = []
  /\ host_writes tr = [].
Proof.
  intros tr. subst tr. rewrite initializeGL_trace.
  destruct (truthy (logger (widget W))),
    (isCubemap (ddsFile (widget W))
     && hasExtension currentContext "GL_ARB_seamless_cube_map");
    repeat split; reflexivity.
Qed.

(** X5: [cleanup] undoes [initializeGL]: from any state, an [initializeGL]
    (whether or not its upload raised) followed by a [cleanup] returns
    normally and leaves [clean] set and every GL attribute [None], with the
    file, the surface format and the plugin untouched; the widget can then be
    initialized again, by the same calls as the first time. *)
Theorem X5_cleanup_undoes_initializeGL (W : World) :
  let W1 := state (initializeGL W) in
  let W2 := state (cleanup W1) in
  result (cleanup W1) = Ok tt
  /\ clean (widget W2) = true
  /\ program (widget W2) = None
  /\ transparecyProgram (widget W2) = None
  /\ texture (widget W2) = None
  /\ vbo (widget W2) = None
  /\ vao (widget W2) = None
  /\ ddsFile (widget W2) = ddsFile (widget W)
  /\ format (widget W2) = format (widget W)
  /\ ddsPreview W2 = ddsPreview W
  /\ trace (initializeGL W2) = trace (initializeGL W)
  /\ initialized (widget (state (initializeGL W2))) = true.
Proof.
  intros W1 W2.
  assert (Hi : initialized (widget W1) = true) by apply initializeGL_initialized.
  assert (Hrun := cleanup_run W1 Hi). fold W2 in Hrun.
  destruct (initializeGL_buffers W) as (_ & _ & _ & Hfile & Hplugin).
  destruct (initializeGL_logger W) as (Hlogger & Hformat).
  fold W1 in Hfile, Hplugin, Hlogger, Hformat.
  assert (HW2 : W2 = set_widget
     (set_clean true (set_vao None (set_vbo None (set_texture None
        (set_transparecyProgram None (set_program None (widget W1))))))) W1).
  { unfold W2. rewrite Hrun. reflexivity. }
  split; [rewrite Hrun; reflexivity|].
  rewrite HW2.
  do 6 (split; [reflexivity|]).
  split; [exact Hfile|].
  split; [exact Hformat|].
  split; [exact Hplugin|].
  split; [|apply initializeGL_initialized].
  rewrite !initializeGL_trace.
  cbn [widget set_widget set_clean set_vao set_vbo set_texture set_transparecyProgram
       set_program ddsFile logger].
  rewrite Hfile, Hlogger.
  destruct (logger (widget W)); reflexivity.
Qed.

(** X6: every run of [initializeGL] connects the logging lambda once more:
    after [n] runs the logger of a debug widget holds [n] further copies of
    the slot; a widget without a logger never gets one. *)
Theorem X6_each_initializeGL_connects_the_slot_again (n : nat) (W : World) :
  option_map messageLogged (logger (widget (initializeGL_times n W))) =
  option_map (fun l => messageLogged l ++ repeat LogDebugMessage n)
             (logger (widget W)).
Proof.
  induction n as [|n IH].
  - cbn. destruct (logger (widget W)); cbn; [rewrite app_nil_r|]; reflexivity.
  - change (initializeGL_times (S n) W)
      with (state (initializeGL (initializeGL_times n W))).
    rewrite (proj1 (initializeGL_logger (initializeGL_times n W))).
    destruct (logger (widget (initializeGL_times n W))) as [l'|];
      destruct (logger (widget W)) as [l|]; cbn in IH |- *; try discriminate;
      [|reflexivity].
    injection IH as ->.
    rewrite <- app_assoc. cbn [repeat].
    rewrite (repeat_cons n LogDebugMessage). reflexivity.
Qed.

(** X7: when the upload raises on a widget without a texture, [initializeGL]
    ends with that exception after making every call it makes on success,
    and rolls nothing back: the programs, the vertex array and the buffer
    stay, the widget counts as initialized and has no texture.  A paint then
    still makes its two draws, binding no texture, and a [cleanup] destroys
    the buffer and the vertex array and no texture. *)
Theorem X7_failed_upload_leaves_a_paintable_widget (W : World) (o : Organizer)
    (e : PyExn) (g : GLState) :
  organizer (ddsPreview W) = Some o ->
  texture (widget W) = None ->
  asQOpenGLTexture (ddsFile (widget W)) = Raise e ->
  let W1 := state (initializeGL W) in
  result (initializeGL W) = Raise e
  /\ initialized (widget W1) = true
  /\ texture (widget W1) = None
  /\ result (paintGL W1) = Ok tt
  /\ length (draws g (trace (paintGL W1))) = 2%nat
  /\ existsb is_texture_bind (trace (paintGL W1)) = false
  /\ result (cleanup W1) = Ok tt
  /\ filter is_destroy (trace (cleanup W1)) =
       [QOpenGLBuffer_destroy; QOpenGLVertexArrayObject_destroy].
Proof.
  intros Ho Htx Hup W1.
  assert (Hi : initialized (widget W1) = true) by apply initializeGL_initialized.
  destruct (initializeGL_upload W) as (_ & _ & Hres & Htex).
  rewrite Hup in Hres, Htex. rewrite Htx in Htex. fold W1 in Htex.
  destruct (initializeGL_buffers W) as (_ & _ & _ & _ & Hplugin). fold W1 in Hplugin.
  assert (Ho1 : organizer (ddsPreview W1) = Some o) by (rewrite Hplugin; exact Ho).
  split; [exact Hres|].
  split; [exact Hi|].
  split; [exact Htex|].
  rewrite (paintGL_run W1 o Ho1 Hi), (cleanup_run W1 Hi), Htex.
  cbn [result trace fst snd].
  destruct (isValid (backgroundColour_of o)), (truthy (o name "transparency"));
    repeat split; reflexivity.
Qed.

(** X8: a paint of an initialized widget changes nothing but the
    "backgroundColour" uniform of [transparecyProgram]: the file, [clean],
    the logger, [program], the texture, the buffer, the vertex array, the
    surface format and the plugin with its store are as before, and so are
    the checkerboard program's shaders, attribute locations and link state;
    a second paint changes nothing further.  The paint destroys nothing and
    writes no setting, and reads the four colour channels and then
    "transparency", each once, under the plugin's name. *)
Theorem X8_paintGL_only_writes_the_background_uniform (W : World) (o : Organizer) :
  organizer (ddsPreview W) = Some o ->
  initialized (widget W) = true ->
  let W1 := state (paintGL W) in
  ddsPreview W1 = ddsPreview W
  /\ set_transparecyProgram (transparecyProgram (widget W)) (widget W1) = widget W
  /\ option_map (fun p => (shaders p, attributeLocations p, linked p))
       (transparecyProgram (widget W1)) =
     option_map (fun p => (shaders p, attributeLocations p, linked p))
       (transparecyProgram (widget W))
  /\ state (paintGL W1) = W1
  /\ existsb is_destroy (trace (paintGL W)) = false
  /\ host_writes (trace (paintGL W)) = []
  /\ host_reads (trace (paintGL W)) =
       [(name, "background r"); (name, "background g"); (name, "background b");
        (name, "background a"); (name, "transparency")].
Proof.
  intros Ho Hi W1.
  assert (Hrun := paintGL_run W o Ho Hi). cbv zeta in Hrun.
  assert (HW1 : W1 = set_widget
     (set_transparecyProgram
        (option_map (fun tp => if isValid (backgroundColour_of o)
                               then setBackgroundColour (backgroundColour_of o) tp
                               else tp)
                    (transparecyProgram (widget W)))
        (widget W)) W).
  { unfold W1. rewrite Hrun. reflexivity. }
  assert (Ho1 : organizer (ddsPreview W1) = Some o) by (rewrite HW1; exact Ho).
  assert (Hi1 : initialized (widget W1) = true).
  { rewrite HW1. destruct (initialized_inv _ Hi) as (Hc & p & tp & b & v & Hp & Htp & Hb & Hv).
    destruct W as [pl [f cl lg pr tpx tx vb va fm]].
    cbn [widget program transparecyProgram vbo vao clean] in *. subst. reflexivity. }
  split; [rewrite HW1; reflexivity|].
  split; [rewrite HW1; destruct W as [pl [f cl lg pr tpx tx vb va fm]]; reflexivity|].
  split.
  { rewrite HW1. cbn [widget set_widget set_transparecyProgram transparecyProgram].
    destruct (transparecyProgram (widget W)) as [tp|]; [|reflexivity].
    cbn [option_map]. destruct (isValid (backgroundColour_of o)); reflexivity. }
  split.
  { rewrite (paintGL_run W1 o Ho1 Hi1). cbv zeta. cbn [state fst snd].
    rewrite HW1. destruct W as [pl [f cl lg pr tpx tx vb va fm]].
    cbn [widget set_widget set_transparecyProgram transparecyProgram ddsPreview].
    destruct tpx as [tp|]; [|reflexivity].
    cbn [option_map]. destruct (isValid (backgroundColour_of o)) eqn:Hv;
      cbn [setBackgroundColour shaders attributeLocations linked]; reflexivity. }
  rewrite Hrun. cbn [trace snd].
  destruct (isValid (backgroundColour_of o)), (truthy (o name "transparency")),
    (texture (widget W)); repeat split; reflexivity.
Qed.

(** X9: a paint of an initialized widget releases the program and the texture
    it binds: replayed from any GL state, its calls end with no program in
    use, with blending as the transparency setting says, and with no texture
    bound when the widget has one (without one the paint leaves the texture
    binding as it found it).  The checkerboard pass runs with the texture
    binding the paint found, and so does the texture pass of a widget without
    a texture; with a texture, the texture pass runs with it bound. *)
Theorem X9_paintGL_releases_program_and_texture (W : World) (o : Organizer) (g : GLState) :
  organizer (ddsPreview W) = Some o ->
  initialized (widget W) = true ->
  let g1 := gl_run g (trace (paintGL W)) in
  currentProgram g1 = None
  /\ boundTexture g1 =
       match texture (widget W) with
       | Some _ => None
       | None => boundTexture g
       end
  /\ blendEnabled g1 = truthy (o name "transparency")
  /\ map (fun d => boundTexture (drawState d)) (draws g (trace (paintGL W))) =
       [boundTexture g;
        match texture (widget W) with
        | Some t => Some t
        | None => boundTexture g
        end].
Proof.
  intros Ho Hi g1. subst g1.
  rewrite (paintGL_run W o Ho Hi). cbn [trace snd].
  destruct (isValid (backgroundColour_of o)), (truthy (o name "transparency")),
    (texture (widget W)); repeat split; reflexivity.
Qed.

(** X10: blending is switched only before the texture pass, so the
    checkerboard pass of a paint runs with the blend state it finds: in the
    paint that follows another, it is blended exactly when the transparency
    setting was true at the earlier paint, whatever the setting is now. *)
Theorem X10_checkerboard_inherits_blend_state (W W' : World) (o o' : Organizer)
    (g : GLState) :
  organizer (ddsPreview W) = Some o ->
  initialized (widget W) = true ->
  organizer (ddsPreview W') = Some o' ->
  initialized (widget W') = true ->
  let g1 := gl_run g (trace (paintGL W)) in
  map (fun d => blendEnabled (drawState d)) (draws g (trace (paintGL W))) =
    [blendEnabled g; truthy (o name "transparency")]
  /\ map (fun d => blendEnabled (drawState d)) (draws g1 (trace (paintGL W'))) =
    [truthy (o name "transparency"); truthy (o' name "transparency")].
Proof.
  intros Ho Hi Ho' Hi' g1. subst g1.
  rewrite (paintGL_run W o Ho Hi), (paintGL_run W' o' Ho' Hi'). cbn [trace snd].
  destruct (isValid (backgroundColour_of o)), (truthy (o name "transparency")),
    (texture (widget W)),
    (isValid (backgroundColour_of o')), (truthy (o' name "transparency")),
    (texture (widget W')); split; reflexivity.
Qed.

(** ** Further properties of the plugin object *)

(** The store after [setPluginSetting]: the written key holds the value,
    every other key of every plugin is as before. *)
Lemma setPluginSetting_run (o : Organizer) (k : string) (v : PyVal) :
  exists o',
    setPluginSetting k v {| organizer := Some o |} =
      (Ok tt, {| organizer := Some o' |}, [IOrganizer_setPluginSetting name k v])
    /\ o' name k = v
    /\ (forall n k', (n =? name)%string && (k' =? k)%string = false -> o' n k' = o n k').
Proof.
  unfold setPluginSetting. run_method.
  eexists. split; [reflexivity|]. split.
  - cbv beta. rewrite !String.eqb_refl. reflexivity.
  - intros n k' H. cbv beta. rewrite H. reflexivity.
Qed.

(** X12: the colour button's slot and [getBackgroundColour] agree on the
    four keys and their order: after the dialog returned a colour,
    [getBackgroundColour] builds [QColor] from exactly its four channels
    (the same colour when they are in 0..255), while "transparency" and
    "log gl errors" read as before; the slot opens the dialog on the current
    background colour, writes the four channels and asks for a repaint.
    When the dialog returned an invalid colour (it was cancelled) the slot
    writes nothing, asks for no repaint and leaves the store as it was. *)
Theorem X12_picked_colour_reads_back (o : Organizer) (r g b a : Z) :
  let p := {| organizer := Some o |} in
  let pick := pickColour (Rgba r g b a) p in
  result pick = Ok tt
  /\ result (getBackgroundColour (state pick)) = Ok (QColor_init r g b a)
  /\ (channel_ok r && channel_ok g && channel_ok b && channel_ok a = true ->
      result (getBackgroundColour (state pick)) = Ok (Rgba r g b a))
  /\ result (getTransparency (state pick)) = Ok (o name "transparency")
  /\ result (organizer_pluginSetting "log gl errors" (state pick)) =
       Ok (o name "log gl errors")
  /\ trace pick =
       [IOrganizer_pluginSetting name "background r";
        IOrganizer_pluginSetting name "background g";
        IOrganizer_pluginSetting name "background b";
        IOrganizer_pluginSetting name "background a";
        QColorDialog_getColor (backgroundColour_of o);
        IOrganizer_setPluginSetting name "background r" (PyInt r);
        IOrganizer_setPluginSetting name "background g" (PyInt g);
        IOrganizer_setPluginSetting name "background b" (PyInt b);
        IOrganizer_setPluginSetting name "background a" (PyInt a);
        QOpenGLWidget_update]
  /\ pickColour InvalidColour p =
       (Ok tt, p,
        [IOrganizer_pluginSetting name "background r";
         IOrganizer_pluginSetting name "background g";
         IOrganizer_pluginSetting name "background b";
         IOrganizer_pluginSetting name "background a";
         QColorDialog_getColor (backgroundColour_of o)]).
Proof.
  intros p pick.
  assert (Hpick : exists o',
            pick = (Ok tt, {| organizer := Some o' |}, trace pick)
            /\ o' name "background r" = PyInt r /\ o' name "background g" = PyInt g
            /\ o' name "background b" = PyInt b /\ o' name "background a" = PyInt a
            /\ o' name "transparency" = o name "transparency"
            /\ o' name "log gl errors" = o name "log gl errors").
  { subst pick p. unfold pickColour, getBackgroundColour, setPluginSetting.
    run_method. eexists. split; [reflexivity|]. repeat split; reflexivity. }
  destruct Hpick as (o' & Hrun & Hr & Hg & Hb & Ha & Ht & Hl).
  assert (Hstate : state pick = {| organizer := Some o' |}) by (rewrite Hrun; reflexivity).
  assert (Hback : result (getBackgroundColour (state pick)) = Ok (QColor_init r g b a)).
  { rewrite Hstate, (getBackgroundColour_run {| organizer := Some o' |} o' eq_refl). unfold backgroundColour_of.
    rewrite Hr, Hg, Hb, Ha. reflexivity. }
  split; [rewrite Hrun; reflexivity|].
  split; [exact Hback|].
  split; [intros Hok; rewrite Hback; unfold QColor_init; rewrite Hok; reflexivity|].
  split; [rewrite Hstate, (getTransparency_run {| organizer := Some o' |} o' eq_refl), Ht; reflexivity|].
  split.
  { rewrite Hstate. unfold organizer_pluginSetting. run_method. rewrite Hl. reflexivity. }
  split.
  { subst pick p. unfold pickColour, getBackgroundColour, setPluginSetting,
      backgroundColour_of. run_method. reflexivity. }
  subst p. unfold pickColour, getBackgroundColour, backgroundColour_of.
  run_method. reflexivity.
Qed.

(** X13: the check box's slot stores the negation of the box, and the check
    box is built from the negation of what is stored: after the slot ran
    with the box checked or not, "transparency" reads as the opposite, and a
    check box built anew shows the box as the user left it.  The slot writes
    this one setting, asks for a repaint, and leaves the background colour
    and every other setting as they were. *)
Theorem X13_toggled_transparency_reads_back (o : Organizer) (isChecked : bool) :
  let p := {| organizer := Some o |} in
  let toggle := toggleTransparency isChecked p in
  result toggle = Ok tt
  /\ trace toggle =
       [IOrganizer_setPluginSetting name "transparency" (PyBool (negb isChecked));
        QOpenGLWidget_update]
  /\ result (getTransparency (state toggle)) = Ok (PyBool (negb isChecked))
  /\ result (makeToggleTransparencyButton (state toggle)) = Ok isChecked
  /\ result (getBackgroundColour (state toggle)) = result (getBackgroundColour p)
  /\ exists o',
       organizer (state toggle) = Some o'
       /\ forall n k, (n =? name)%string && (k =? "transparency")%string = false ->
                      o' n k = o n k.
Proof.
  intros p toggle.
  destruct (setPluginSetting_run o "transparency" (PyBool (negb isChecked)))
    as (o' & Hset & Hval & Hother).
  assert (Hrun : toggle =
            (Ok tt, {| organizer := Some o' |},
             [IOrganizer_setPluginSetting name "transparency" (PyBool (negb isChecked));
              QOpenGLWidget_update])).
  { subst toggle p. unfold toggleTransparency, bind. rewrite Hset. reflexivity. }
  rewrite Hrun. cbn [result state trace fst snd].
  split; [reflexivity|].
  split; [reflexivity|].
  split; [rewrite (getTransparency_run {| organizer := Some o' |} o' eq_refl), Hval; reflexivity|].
  split.
  { unfold makeToggleTransparencyButton, bind, call.
    rewrite (getTransparency_run {| organizer := Some o' |} o' eq_refl), Hval.
    cbn. rewrite negb_involutive. reflexivity. }
  split.
  { subst p. rewrite (getBackgroundColour_run {| organizer := Some o' |} o' eq_refl),
      (getBackgroundColour_run {| organizer := Some o |} o eq_refl).
    unfold backgroundColour_of. rewrite !Hother by reflexivity. reflexivity. }
  exists o'. split; [reflexivity | exact Hother].
Qed.

(** X14: from the colour button to the shader: after the slot stored a colour
    whose channels are in 0..255, the next paint of an initialized widget
    writes exactly that colour to the "backgroundColour" uniform, and the
    checkerboard program holds it afterwards. *)
Theorem X14_picked_colour_reaches_the_shader (W : World) (o : Organizer)
    (r g b a : Z) :
  organizer (ddsPreview W) = Some o ->
  initialized (widget W) = true ->
  channel_ok r && channel_ok g && channel_ok b && channel_ok a = true ->
  let W1 := state (via_ddsPreview (pickColour (Rgba r g b a)) W) in
  uniforms_set (trace (paintGL W1)) =
    [(self_transparecyProgram, "backgroundColour", Rgba r g b a)]
  /\ option_map backgroundColourUniform (transparecyProgram (widget (state (paintGL W1)))) =
       Some (Some (Rgba r g b a)).
Proof.
  intros Ho Hi Hok W1.
  assert (HW1 : exists o', organizer (ddsPreview W1) = Some o'
                           /\ backgroundColour_of o' = Rgba r g b a
                           /\ widget W1 = widget W).
  { subst W1. destruct W as [[og] w]. cbn [ddsPreview organizer] in Ho. subst og.
    unfold pickColour, getBackgroundColour, setPluginSetting. run_method.
    eexists. split; [reflexivity|]. split; [|reflexivity].
    unfold backgroundColour_of. cbv beta.
    cbn [String.eqb Ascii.eqb Bool.eqb andb name as_int].
    fold (QColor_init r g b a). unfold QColor_init. rewrite Hok. reflexivity. }
  destruct HW1 as (o' & Ho' & Hcol & Hw).
  assert (Hi' : initialized (widget W1) = true) by (rewrite Hw; exact Hi).
  rewrite (paintGL_run W1 o' Ho' Hi'). cbv zeta. cbn [state trace fst snd].
  rewrite Hcol. cbn [isValid].
  destruct (initialized_inv _ Hi') as (_ & p & tp & _ & _ & _ & Htp & _).
  split.
  - destruct (truthy (o' name "transparency")), (texture (widget W1)); reflexivity.
  - cbn [widget set_widget set_transparecyProgram transparecyProgram].
    rewrite Htp. reflexivity.
Qed.

(** X16: the plugin object as [createPlugin] returns it has no organizer:
    until the host calls [init], reading or writing a setting raises
    [AttributeError] without reaching the host, and [genFilePreview] of a
    decodable file raises it after building the layout and the label and
    before constructing the GL widget.  [init] returns [True] and stores the
    organizer, after which a setting reads as the host holds it. *)
Theorem X16_plugin_before_and_after_init (k : string) (v : PyVal)
    (fileName0 : string) (maxSize : Z * Z) (o : Organizer) :
  pluginSetting k createPlugin =
    (Raise (AttributeError "NoneType" "pluginSetting"), createPlugin, [])
  /\ setPluginSetting k v createPlugin =
    (Raise (AttributeError "NoneType" "setPluginSetting"), createPlugin, [])
  /\ getBackgroundColour createPlugin =
    (Raise (AttributeError "NoneType" "pluginSetting"), createPlugin, [])
  /\ getTransparency createPlugin =
    (Raise (AttributeError "NoneType" "pluginSetting"), createPlugin, [])
  /\ match load fileName0 with
     | Ok f =>
         genFilePreview fileName0 maxSize createPlugin =
         (Raise (AttributeError "NoneType" "pluginSetting"), createPlugin,
          [DDSFile_init fileName0; DDSFile_load fileName0; QGridLayout_init;
           QGridLayout_setRowStretch 0 1; QGridLayout_setColumnStretch 0 1;
           DDSFile_getDescription; QLabel_init (description f);
           QLabel_setWordWrap true; QLabel_setTextInteractionFlags;
           QGridLayout_addWidget TheLabel 1 0 1 1])
     | Raise e =>
         genFilePreview fileName0 maxSize createPlugin =
         (Raise e, createPlugin, [DDSFile_init fileName0; DDSFile_load fileName0])
     end
  /\ init o createPlugin = (Ok true, {| organizer := Some o |}, [])
  /\ pluginSetting k (state (init o createPlugin)) =
       (Ok (o name k), {| organizer := Some o |}, [IOrganizer_pluginSetting name k]).
Proof.
  unfold createPlugin, getBackgroundColour, getTransparency, setPluginSetting, init.
  repeat split; try (run_method; reflexivity).
  run_genFilePreview; reflexivity.
Qed.

(** X17: for an initialized plugin and a decodable file, [genFilePreview]
    returns a panel whose label is the file's description, whose GL widget is
    the one the constructor builds for the decoded file and the stored
    "log gl errors" value, and whose check box is checked exactly when the
    stored "transparency" is false.  It reads these two settings, in this
    order, writes none and leaves the plugin as it was; the four children
    occupy pairwise distinct cells that fill the grid of two rows and three
    columns. *)
Theorem X17_genFilePreview_builds_the_panel (o : Organizer) (fileName0 : string)
    (maxSize : Z * Z) :
  let p := {| organizer := Some o |} in
  let run := genFilePreview fileName0 maxSize p in
  match load fileName0 with
  | Ok f =>
      exists w,
        result (DDSWidget_init f (o name "log gl errors") p) = Ok w
        /\ result run =
             Ok {| panelLabel := description f;
                   panelDDSWidget := w;
                   panelChecked := negb (truthy (o name "transparency")) |}
        /\ state run = p
        /\ host_reads (trace run) = [(name, "log gl errors"); (name, "transparency")]
        /\ host_writes (trace run) = []
        /\ grid_cells (trace run) =
             [(TheLabel, (1, 0));
              (TheDDSWidget, (0, 0)); (TheDDSWidget, (0, 1)); (TheDDSWidget, (0, 2));
              (TheColourButton, (1, 2));
              (TheTransparencyCheckBox, (1, 1))]
        /\ NoDup (map snd (grid_cells (trace run)))
        /\ incl (cells 0 0 2 3) (map snd (grid_cells (trace run)))
  | Raise _ => True
  end.
Proof.
  assert (Hnodup : NoDup [(1, 0); (0, 0); (0, 1); (0, 2); (1, 2); (1, 1)]).
  { repeat (constructor; [cbn [In]; intros H;
      repeat (destruct H as [H|H]; [discriminate H|]); exact H|]).
    constructor. }
  assert (Hincl : incl (cells 0 0 2 3) [(1, 0); (0, 0); (0, 1); (0, 2); (1, 2); (1, 1)]).
  { intros c Hc. vm_compute in Hc. cbn [In].
    repeat (destruct Hc as [<-|Hc]; [tauto|]). contradiction. }
  run_genFilePreview; try exact I;
    eexists; (split; [reflexivity|]);
    repeat (split; [reflexivity|]); (split; [exact Hnodup | exact Hincl]).
Qed.

(** X18: the vertex data, its layout and the draws fit together: the buffer
    [initializeGL] fills has 144 bytes; attribute 0 spans bytes 0..16 and
    attribute 1 bytes 16..24 of each 24-byte vertex, the two enabled arrays;
    and every draw of a later paint reads, for each attribute, only inside
    the buffer, the last vertex ending exactly at its end. *)
Theorem X18_vertex_fetch_in_bounds (W : World) (o : Organizer) (g : GLState) :
  organizer (ddsPreview W) = Some o ->
  let init := initializeGL W in
  let ptrs := attrib_pointers (trace init) in
  let ds := draws g (trace (paintGL (state init))) in
  option_map bufferBytes (vbo (widget (state init))) = Some 144
  /\ map attribIndex ptrs = enabled_attrib_arrays (trace init)
  /\ map attrib_range ptrs = [Some (0, 16); Some (16, 24)]
  /\ map attribStride ptrs = [24; 24]
  /\ forallb (fun a => forallb (fetch_in_bounds 144 a) ds) ptrs = true
  /\ map (fun d => (drawFirst d + drawCount d) * 24) ds = [144; 144].
Proof.
  intros Ho init ptrs ds.
  assert (Hi : initialized (widget (state init)) = true) by apply initializeGL_initialized.
  destruct (initializeGL_buffers W) as (Hvbo & _ & _ & _ & Hplugin).
  fold init in Hvbo, Hplugin.
  assert (Ho1 : organizer (ddsPreview (state init)) = Some o) by (rewrite Hplugin; exact Ho).
  split; [rewrite Hvbo; reflexivity|].
  subst ds. rewrite (paintGL_run (state init) o Ho1 Hi). cbn [trace snd].
  subst ptrs init. rewrite initializeGL_trace.
  destruct (truthy (logger (widget W))),
    (isCubemap (ddsFile (widget W))
     && hasExtension currentContext "GL_ARB_seamless_cube_map"),
    (isValid (backgroundColour_of o)), (truthy (o name "transparency")),
    (texture (widget (state (initializeGL W))));
    repeat split; reflexivity.
Qed.

(** X19: the names the widget binds exist in the shaders it compiles: in
    both programs every attribute name bound to a location is declared in
    that program's vertex shader, with the vector type whose size is the
    component count of the pointer set up for that location; and the uniform
    "backgroundColour" a paint writes is declared as a [vec4] in the fragment
    shader of the checkerboard program.  This holds for all four variants. *)
Theorem X19_bound_names_are_declared (W : World) :
  let init := initializeGL W in
  let ptrs := attrib_pointers (trace init) in
  match program (widget (state init)), transparecyProgram (widget (state init)) with
  | Some p, Some tp =>
      forallb (attribute_declared ptrs (shaders p)) (attributeLocations p) = true
      /\ forallb (attribute_declared ptrs (shaders tp)) (attributeLocations tp) = true
      /\ uniform_declared "vec4" "backgroundColour" (shaders tp) = true
      /\ length (attributeLocations p) = 2%nat
      /\ length (attributeLocations tp) = 1%nat
  | _, _ => False
  end.
Proof.
  intros init ptrs. subst ptrs init.
  rewrite initializeGL_program, initializeGL_transparecyProgram, initializeGL_trace.
  cbv zeta.
  destruct (truthy (logger (widget W))),
    (isCubemap (ddsFile (widget W))
     && hasExtension currentContext "GL_ARB_seamless_cube_map");
    cbn [app attrib_pointers];
    destruct (spec_variant (isCubemap (ddsFile (widget W)))
                (samplerType (glFormat (ddsFile (widget W)))));
    repeat split; vm_compute; reflexivity.
Qed.

(** X20: the two slots write only settings the plugin declares, under its
    own name, and with a value of the declared default's type: an [int] for
    each colour channel, a [bool] for "transparency". *)
Theorem X20_slots_write_declared_settings_at_their_type (o : Organizer)
    (newColour : QColor) (isChecked : bool) :
  let p := {| organizer := Some o |} in
  let declared := fun w : string * string * PyVal =>
    (fst (fst w) =? name)%string
    && existsb (fun s => (key s =? snd (fst w))%string && same_type (default s) (snd w))
               settings in
  forallb declared (host_writes (trace (pickColour newColour p))) = true
  /\ forallb declared (host_writes (trace (toggleTransparency isChecked p))) = true
  /\ length (host_writes (trace (pickColour newColour p))) =
       (if isValid newColour then 4%nat else 0%nat)
  /\ length (host_writes (trace (toggleTransparency isChecked p))) = 1%nat.
Proof.
  intros p declared. subst p declared.
  unfold pickColour, toggleTransparency, getBackgroundColour, setPluginSetting.
  destruct newColour as [|r g b a]; run_method; repeat split; reflexivity.
Qed.

(** X15: from the check box to the draw: the widget reads the store of the
    one plugin object, so after the check box's slot ran, the next paint of
    an initialized widget blends its texture pass exactly when the box is
    unchecked, disabling blending explicitly when it is checked; the
    checkerboard pass before it keeps the blend state the paint found. *)
Theorem X15_toggled_transparency_reaches_the_draw (W : World) (o : Organizer)
    (g : GLState) (isChecked : bool) :
  organizer (ddsPreview W) = Some o ->
  initialized (widget W) = true ->
  let W1 := state (via_ddsPreview (toggleTransparency isChecked) W) in
  map (fun d => blendEnabled (drawState d)) (draws g (trace (paintGL W1))) =
    [blendEnabled g; negb isChecked]
  /\ filter is_blend_switch (trace (paintGL W1)) =
       (if isChecked then [glDisable GL_BLEND]
        else [glEnable GL_BLEND; glBlendFunc GL_SRC_ALPHA GL_ONE_MINUS_SRC_ALPHA])
  /\ widget W1 = widget W.
Proof.
  intros Ho Hi W1.
  assert (HW1 : exists o', organizer (ddsPreview W1) = Some o'
                           /\ o' name "transparency" = PyBool (negb isChecked)
                           /\ widget W1 = widget W).
  { subst W1. destruct W as [[og] w]. cbn [ddsPreview organizer] in Ho. subst og.
    unfold toggleTransparency, setPluginSetting. run_method.
    eexists. split; [reflexivity|]. split; reflexivity. }
  destruct HW1 as (o' & Ho' & Hval & Hw).
  assert (Hi' : initialized (widget W1) = true) by (rewrite Hw; exact Hi).
  rewrite (paintGL_run W1 o' Ho' Hi'). cbn [trace snd]. rewrite Hval.
  destruct (isValid (backgroundColour_of o')), isChecked, (texture (widget W1));
    repeat split; first [reflexivity | exact Hw].
Qed.

End Plugin.

(** ** Two files, two contexts *)

(** C4: the program [initializeGL] builds is a function of [isCubemap] and
    [glFormat.samplerType] alone: two widgets whose files agree on these two
    get the same program (same vertex and fragment sources, in the object
    and in the calls of the trace), whatever else differs between the files,
    the widgets' earlier state, the GL contexts and the uploads' outcomes. *)
Theorem C4_selection_depends_only_on_cubemap_and_sampler
    (upload1 upload2 : DDSFile -> Res (option QOpenGLTexture))
    (context1 context2 : QOpenGLContext) (W1 W2 : World) :
  isCubemap (ddsFile (widget W1)) = isCubemap (ddsFile (widget W2)) ->
  samplerType (glFormat (ddsFile (widget W1))) =
    samplerType (glFormat (ddsFile (widget W2))) ->
  program (widget (state (initializeGL upload1 context1 W1))) =
    program (widget (state (initializeGL upload2 context2 W2)))
  /\ shaders_added self_program (trace (initializeGL upload1 context1 W1)) =
       shaders_added self_program (trace (initializeGL upload2 context2 W2)).
Proof.
  intros Hcube Hsampler.
  rewrite !initializeGL_program, !initializeGL_shaders_added.
  cbv zeta. rewrite Hcube, Hsampler. split; reflexivity.
Qed.

(** ** Concrete runs *)

(** [sample_world] is what [initializeGL] makes of the fresh sample widget. *)
Lemma sample_world_reached :
  initializeGL sample_upload sample_context
    {| ddsPreview := sample_plugin; widget := fresh_widget sample_file |}
  = (Ok tt, sample_world,
     trace (initializeGL sample_upload sample_context
              {| ddsPreview := sample_plugin; widget := fresh_widget sample_file |})).
Proof. vm_compute. reflexivity. Qed.

(** The panel built for the sample file: the fresh widget, with the check
    box unchecked because transparency is on. *)
Lemma sample_genFilePreview :
  result (genFilePreview sample_translate sample_load "rgba8.dds" (640, 480) sample_plugin)
  = Ok {| panelLabel := "4x4 RGBA8";
          panelDDSWidget := fresh_widget sample_file;
          panelChecked := false |}.
Proof. vm_compute. reflexivity. Qed.

Example str_format_sample :
  str_format "OpenGL debug message: {0}" "link failed" =
  "OpenGL debug message: link failed".
Proof. reflexivity. Qed.

Example QColor_in_range : QColor_init 10 20 30 255 = Rgba 10 20 30 255.
Proof. reflexivity. Qed.

Example QColor_out_of_range :
  QColor_init 300 0 0 0 = InvalidColour /\ QColor_init 0 (-1) 0 0 = InvalidColour.
Proof. split; reflexivity. Qed.

(** A cubemap gets the cubemap pair although its sampler is "UI", and the
    seamless extension is enabled only where the context has it. *)
Example cubemap_overrides_sampler :
  selectShaders sample_context sample_cubemap sample_world =
    (Ok (vertexShaderCube, fragmentShaderCube), sample_world,
     [glEnable GL_TEXTURE_CUBE_MAP_SEAMLESS])
  /\ selectShaders bare_context sample_cubemap sample_world =
    (Ok (vertexShaderCube, fragmentShaderCube), sample_world, []).
Proof. split; reflexivity. Qed.

(** A failed upload leaves the widget initialized and without a texture. *)
Example failed_upload_sample :
  let run := initializeGL failing_upload sample_context
               {| ddsPreview := sample_plugin; widget := fresh_widget sample_file |} in
  result run = Raise (DDSException UploadRejected)
  /\ initialized (widget (state run)) = true
  /\ texture (widget (state run)) = None.
Proof. vm_compute. repeat split; reflexivity. Qed.

(** A decode error: nothing after [load] is called. *)
Example failed_decode_sample :
  genFilePreview sample_translate sample_load "broken.dds" (640, 480) sample_plugin =
  (Raise (DDSException BadMagic), sample_plugin,
   [DDSFile_init "broken.dds"; DDSFile_load "broken.dds"]).
Proof. vm_compute. reflexivity. Qed.

(** A debug message on a widget built with a debug context. *)
Example debug_message_sample :
  let w := {| ddsFile := sample_file; clean := true;
              logger := Some {| loggerInitialized := false; messageLogged := [];
                                logging := false |};
              program := None; transparecyProgram := None; texture := None;
              vbo := None; vao := None; format := [DebugContext] |} in
  let W := state (initializeGL sample_upload sample_context
                    {| ddsPreview := sample_plugin; widget := w |}) in
  result (DDSWidget_init (S:=DDSPreview) sample_file (PyBool true) sample_plugin) = Ok w
  /\ messageLogged_emit sample_translate "link failed" W =
       (Raise (AttributeError "str" "fomat"), W, []).
Proof. vm_compute. split; reflexivity. Qed.

(** C3 at the sample widget: three teardown hooks in a row amount to one
    [cleanup]. *)
Lemma C3_witness :
  initialized (widget sample_world) = true
  /\ teardowns [by_aboutToBeDestroyed; by_del; by_dtor] sample_world = cleanup sample_world.
Proof.
  split; [reflexivity|].
  destruct (C3_cleanup_releases_once_and_is_idempotent sample_world eq_refl)
    as (_ & _ & _ & _ & _ & _ & _ & _ & H).
  exact (H by_aboutToBeDestroyed [by_del; by_dtor]).
Defined.

(** C4 at two files that share only the cubemap flag and the sampler, in two
    contexts, one upload succeeding and one failing. *)
Lemma C4_witness :
  program (widget (state (initializeGL sample_upload sample_context
    {| ddsPreview := sample_plugin; widget := fresh_widget sample_uint_small |})))
  = program (widget (state (initializeGL failing_upload bare_context
    {| ddsPreview := sample_plugin; widget := fresh_widget sample_uint_large |}))).
Proof.
  exact (proj1 (C4_selection_depends_only_on_cubemap_and_sampler
                  sample_upload failing_upload sample_context bare_context
                  {| ddsPreview := sample_plugin; widget := fresh_widget sample_uint_small |}
                  {| ddsPreview := sample_plugin; widget := fresh_widget sample_uint_large |}
                  eq_refl eq_refl)).
Defined.

(** C5 at the sample widget. *)
Lemma C5_witness :
  map draw_summary (draws sample_GLState (trace (paintGL sample_world))) =
  [(GL_TRIANGLES, 0, 6, Some self_transparecyProgram, true);
   (GL_TRIANGLES, 0, 6, Some self_program, true)].
Proof.
  exact (proj1 (proj2 (C5_paintGL_draws_checkerboard_then_texture
                         sample_world sample_organizer sample_GLState eq_refl eq_refl))).
Defined.

(** C6 at the sample widget, whose store has transparency on. *)
Lemma C6_witness :
  filter is_blend_switch (trace (paintGL sample_world)) =
  [glEnable GL_BLEND; glBlendFunc GL_SRC_ALPHA GL_ONE_MINUS_SRC_ALPHA].
Proof.
  destruct (C6_texture_pass_blends_iff_transparency
              sample_world sample_organizer sample_GLState eq_refl eq_refl)
    as (d1 & d2 & _ & _ & _ & _ & H).
  exact H.
Defined.

(** C10 at the sample widget, whose stored red channel is 300. *)
Lemma C10_witness :
  isValid (backgroundColour_of sample_organizer) = false
  /\ uniforms_set (trace (paintGL sample_world)) = []
  /\ transparecyProgram (widget (state (paintGL sample_world))) =
       transparecyProgram (widget sample_world).
Proof.
  destruct (C10_invalid_background_colour_is_skipped
              sample_world sample_organizer eq_refl eq_refl)
    as (_ & _ & Hset & _ & Hkeep & _).
  split; [reflexivity|].
  split; [exact Hset | exact (Hkeep eq_refl)].
Defined.

(** ** Concrete runs of the further properties *)

(** A misspelt attribute name is not declared in the sample program. *)
Example misspelt_attribute_sample :
  attribute_declared
    (attrib_pointers (trace (initializeGL sample_upload sample_context sample_world)))
    [(Vertex, vertexShader2D); (Fragment, fragmentShaderFloat)] ("texCoord", 1) = false
  /\ attribute_declared
    (attrib_pointers (trace (initializeGL sample_upload sample_context sample_world)))
    [(Vertex, vertexShader2D); (Fragment, fragmentShaderFloat)] ("texCoordIn", 1) = true.
Proof. split; vm_compute; reflexivity. Qed.

(** X7 at the fresh sample widget, with an upload that is rejected. *)
Lemma X7_witness :
  result (initializeGL failing_upload sample_context
            {| ddsPreview := sample_plugin; widget := fresh_widget sample_file |})
    = Raise (DDSException UploadRejected)
  /\ filter is_destroy
       (trace (cleanup (state (initializeGL failing_upload sample_context
          {| ddsPreview := sample_plugin; widget := fresh_widget sample_file |}))))
     = [QOpenGLBuffer_destroy; QOpenGLVertexArrayObject_destroy].
Proof.
  destruct (X7_failed_upload_leaves_a_paintable_widget
              failing_upload sample_context
              {| ddsPreview := sample_plugin; widget := fresh_widget sample_file |}
              sample_organizer (DDSException UploadRejected) sample_GLState
              eq_refl eq_refl eq_refl)
    as (Hres & _ & _ & _ & _ & _ & _ & Hdestroy).
  split; [exact Hres | exact Hdestroy].
Defined.

(** X8 at the sample widget: a second paint changes nothing further. *)
Lemma X8_witness :
  state (paintGL (state (paintGL sample_world))) = state (paintGL sample_world).
Proof.
  destruct (X8_paintGL_only_writes_the_background_uniform
              sample_world sample_organizer eq_refl eq_refl)
    as (_ & _ & _ & H & _).
  exact H.
Defined.

(** X9 at the sample widget. *)
Lemma X9_witness :
  currentProgram (gl_run sample_GLState (trace (paintGL sample_world))) = None
  /\ boundTexture (gl_run sample_GLState (trace (paintGL sample_world))) = None.
Proof.
  destruct (X9_paintGL_releases_program_and_texture
              sample_world sample_organizer sample_GLState eq_refl eq_refl)
    as (Hp & Ht & _).
  split; [exact Hp | exact Ht].
Defined.

(** X10 at two paints of the sample widget. *)
Lemma X10_witness :
  map (fun d => blendEnabled (drawState d))
      (draws (gl_run sample_GLState (trace (paintGL sample_world)))
             (trace (paintGL sample_world)))
  = [true; true].
Proof.
  exact (proj2 (X10_checkerboard_inherits_blend_state
                  sample_world sample_world sample_organizer sample_organizer
                  sample_GLState eq_refl eq_refl eq_refl eq_refl)).
Defined.

(** X14 at the sample widget and an opaque orange. *)
Lemma X14_witness :
  uniforms_set
    (trace (paintGL (state (via_ddsPreview (pickColour (Rgba 255 128 0 255))
                                           sample_world))))
  = [(self_transparecyProgram, "backgroundColour", Rgba 255 128 0 255)].
Proof.
  exact (proj1 (X14_picked_colour_reaches_the_shader
                  sample_world sample_organizer 255 128 0 255
                  eq_refl eq_refl eq_refl)).
Defined.

(** X15 at the sample widget, the box being checked. *)
Lemma X15_witness :
  map (fun d => blendEnabled (drawState d))
      (draws sample_GLState
         (trace (paintGL (state (via_ddsPreview (toggleTransparency true)
                                                sample_world)))))
  = [false; false].
Proof.
  exact (proj1 (X15_toggled_transparency_reaches_the_draw
                  sample_world sample_organizer sample_GLState true eq_refl eq_refl)).
Defined.

(** X18 at the fresh sample widget. *)
Lemma X18_witness :
  forallb (fun a =>
     forallb (fetch_in_bounds 144 a)
       (draws sample_GLState
          (trace (paintGL (state (initializeGL sample_upload sample_context
             {| ddsPreview := sample_plugin; widget := fresh_widget sample_file |}))))))
    (attrib_pointers (trace (initializeGL sample_upload sample_context
       {| ddsPreview := sample_plugin; widget := fresh_widget sample_file |})))
  = true.
Proof.
  destruct (X18_vertex_fetch_in_bounds sample_upload sample_context
              {| ddsPreview := sample_plugin; widget := fresh_widget sample_file |}
              sample_organizer sample_GLState eq_refl)
    as (_ & _ & _ & _ & H & _).
  exact H.
Defined.
